(** * TangoSIDM_satellites: the density / pericenter power-law fit

    A shallow embedding of [examples/density_pericenter_fit_utils.py].

    Numbers.  The script computes on numpy [float64] values.  They are
    modelled by [float64] below: a finite value is an exact real, and the
    IEEE special values +inf, -inf and nan are kept, with the IEEE rules for
    them (inf - inf = nan, x / 0 = +-inf, 0 / 0 = nan, log 0 = -inf, ...).
    Rounding, overflow and the sign of zero are not modelled: every
    statement below is about exact arithmetic on the extended reals.

    Arrays.  A numpy value is a 0-d scalar or a 1-d array; a binary
    operation broadcasts (a scalar or a length-one array stretches) and
    raises ValueError on a shape mismatch.

    External libraries.  numpy.random, scipy.optimize.minimize, emcee, the
    process pool, the clock and stdout are calls out of the script: the
    [run_*] functions are programs over those calls ([prog]), run against an
    arbitrary implementation of them ([world]). *)

From Stdlib Require Import Reals Lra Lia List Bool ZArith QArith.
Import ListNotations.

Local Open Scope R_scope.

(* ------------------------------------------------------------------ *)
(** ** float64 values *)

Inductive float64 : Type :=
| Fin (r : R)
| PInf
| NInf
| NaN.

Module F.

Definition isfinite (x : float64) : bool :=
  match x with Fin _ => true | _ => false end.

Definition neg (x : float64) : float64 :=
  match x with
  | Fin r => Fin (- r)
  | PInf => NInf
  | NInf => PInf
  | NaN => NaN
  end.

Definition add (x y : float64) : float64 :=
  match x, y with
  | NaN, _ | _, NaN => NaN
  | Fin a, Fin b => Fin (a + b)
  | PInf, NInf | NInf, PInf => NaN
  | PInf, _ | _, PInf => PInf
  | NInf, _ | _, NInf => NInf
  end.

Definition sub (x y : float64) : float64 := add x (neg y).

(** The infinity with the sign of [r]; nan when [r] is zero (0 * inf, 0 / 0). *)
Definition signed_inf (r : R) : float64 :=
  if Rlt_dec 0 r then PInf else if Rlt_dec r 0 then NInf else NaN.

Definition mul (x y : float64) : float64 :=
  match x, y with
  | NaN, _ | _, NaN => NaN
  | Fin a, Fin b => Fin (a * b)
  | Fin a, PInf | PInf, Fin a => signed_inf a
  | Fin a, NInf | NInf, Fin a => signed_inf (- a)
  | PInf, PInf | NInf, NInf => PInf
  | PInf, NInf | NInf, PInf => NInf
  end.

Definition div (x y : float64) : float64 :=
  match x, y with
  | NaN, _ | _, NaN => NaN
  | Fin a, Fin b => if Req_dec_T b 0 then signed_inf a else Fin (a / b)
  | Fin _, PInf | Fin _, NInf => Fin 0
  | PInf, Fin b => if Rlt_dec b 0 then NInf else PInf
  | NInf, Fin b => if Rlt_dec b 0 then PInf else NInf
  | _, _ => NaN
  end.

(** [x ** 2]: numpy squares by multiplying. *)
Definition sqr (x : float64) : float64 := mul x x.

(** [10 ** x]. *)
Definition pow10 (x : float64) : float64 :=
  match x with
  | Fin r => Fin (Rpower 10 r)
  | PInf => PInf
  | NInf => Fin 0
  | NaN => NaN
  end.

(** [np.log]. *)
Definition log (x : float64) : float64 :=
  match x with
  | Fin r => if Rlt_dec 0 r then Fin (ln r)
             else if Req_dec_T r 0 then NInf else NaN
  | PInf => PInf
  | NInf => NaN
  | NaN => NaN
  end.

(** [np.log10]. *)
Definition log10 (x : float64) : float64 :=
  match x with
  | Fin r => if Rlt_dec 0 r then Fin (ln r / ln 10)
             else if Req_dec_T r 0 then NInf else NaN
  | PInf => PInf
  | NInf => NaN
  | NaN => NaN
  end.

(** [np.sqrt]. *)
Definition sqrt (x : float64) : float64 :=
  match x with
  | Fin r => if Rlt_dec r 0 then NaN else Fin (R_sqrt.sqrt r)
  | PInf => PInf
  | NInf => NaN
  | NaN => NaN
  end.

(** [x < y]; every comparison with nan is false. *)
Definition ltb (x y : float64) : bool :=
  match x, y with
  | NaN, _ | _, NaN => false
  | Fin a, Fin b => if Rlt_dec a b then true else false
  | NInf, NInf => false
  | NInf, _ => true
  | _, NInf => false
  | PInf, _ => false
  | _, PInf => true
  end.

(** [x <= y]. *)
Definition leb (x y : float64) : bool :=
  match x, y with
  | NaN, _ | _, NaN => false
  | Fin a, Fin b => if Rle_dec a b then true else false
  | NInf, _ => true
  | _, PInf => true
  | _, _ => false
  end.

End F.

(* ------------------------------------------------------------------ *)
(** ** Python exceptions and the error monad *)

Inductive exn : Type :=
| ValueError
| TypeError
| IndexError.

Inductive result (A : Type) : Type :=
| Ok (a : A)
| Err (e : exn).

Arguments Ok {A} a.
Arguments Err {A} e.

Definition bind {A B : Type} (c : result A) (k : A -> result B) : result B :=
  match c with
  | Ok a => k a
  | Err e => Err e
  end.

Declare Scope py_scope.
Delimit Scope py_scope with py.
Notation "x <- c ;; k" := (bind c (fun x => k))
  (at level 61, c at next level, right associativity) : py_scope.
Local Open Scope py_scope.

(* ------------------------------------------------------------------ *)
(** ** numpy arrays *)

Inductive ndarray : Type :=
| Scalar (v : float64)
| Array (l : list float64).

Fixpoint map2 {A B C : Type} (f : A -> B -> C) (l1 : list A) (l2 : list B)
  : list C :=
  match l1, l2 with
  | a :: l1', b :: l2' => f a b :: map2 f l1' l2'
  | _, _ => []
  end.

(** A binary ufunc with numpy's broadcasting over 0-d and 1-d operands. *)
Definition broadcast (f : float64 -> float64 -> float64) (a b : ndarray)
  : result ndarray :=
  match a, b with
  | Scalar u, Scalar v => Ok (Scalar (f u v))
  | Scalar u, Array l => Ok (Array (map (f u) l))
  | Array l, Scalar v => Ok (Array (map (fun u => f u v) l))
  | Array l1, Array l2 =>
      if Nat.eqb (length l1) (length l2) then Ok (Array (map2 f l1 l2))
      else match l1, l2 with
           | [u], _ => Ok (Array (map (f u) l2))
           | _, [v] => Ok (Array (map (fun u => f u v) l1))
           | _, _ => Err ValueError
           end
  end.

(** A unary ufunc. *)
Definition ufunc (f : float64 -> float64) (a : ndarray) : ndarray :=
  match a with
  | Scalar v => Scalar (f v)
  | Array l => Array (map f l)
  end.

Definition np_add := broadcast F.add.
Definition np_sub := broadcast F.sub.
Definition np_mul := broadcast F.mul.
Definition np_div := broadcast F.div.
Definition np_sqr := ufunc F.sqr.
Definition np_pow10 := ufunc F.pow10.
Definition np_log := ufunc F.log.
Definition np_log10 := ufunc F.log10.
Definition np_sqrt := ufunc F.sqrt.

(** [np.sum]: the sum of all entries, 0.0 for an empty array. *)
Definition np_sum (a : ndarray) : float64 :=
  match a with
  | Scalar v => v
  | Array l => fold_left F.add l (Fin 0)
  end.

(** [len(a)]: a 0-d value has no length. *)
Definition len (a : ndarray) : result nat :=
  match a with
  | Scalar _ => Err TypeError
  | Array l => Ok (length l)
  end.

(** [np.ones(n)]. *)
Definition np_ones (n : nat) : ndarray := Array (repeat (Fin 1) n).

(* ------------------------------------------------------------------ *)
(** ** The model, the prior, the likelihoods and the posteriors *)

(** The parameter vector [theta = (q, m)]. *)
Definition theta_t : Type := (float64 * float64)%type.

Definition log_model (x : ndarray) (q m : float64) : result ndarray :=
  mx <- np_mul (Scalar m) x ;;
  np_add (Scalar q) mx.

Definition log_prior (theta : theta_t) : float64 :=
  let '(q, m) := theta in
  let log_prior := NInf in
  if F.ltb (Fin (-2)) q && F.ltb q (Fin 2)
     && (F.ltb (Fin (-2)) m && F.ltb m (Fin 2))
  then Fin 0
  else log_prior.

Definition log_likelihood (theta : theta_t) (x y xerr yerr : ndarray)
  : result float64 :=
  let '(q, m) := theta in
  model <- log_model x q m ;;
  (* sigma2 = yerr**2 + (m * 10**model) **2 * (xerr / 10**x) **2 *)
  a <- np_mul (Scalar m) (np_pow10 model) ;;
  b <- np_div xerr (np_pow10 x) ;;
  c <- np_mul (np_sqr a) (np_sqr b) ;;
  sigma2 <- np_add (np_sqr yerr) c ;;
  (* ll = (10**y - 10**model) ** 2 / sigma2 *)
  r <- np_sub (np_pow10 y) (np_pow10 model) ;;
  ll <- np_div (np_sqr r) sigma2 ;;
  (* ll += np.log( 2. * np.pi * sigma2 ) *)
  n <- np_mul (Scalar (Fin (2 * PI))) sigma2 ;;
  ll <- np_add ll (np_log n) ;;
  Ok (F.mul (Fin (-0.5)) (np_sum ll)).

Definition log_likelihood_sim (theta : theta_t) (x y yerr : ndarray)
  : result float64 :=
  let '(q, m) := theta in
  model <- log_model x q m ;;
  let sigma2 := np_sqr yerr in
  r <- np_sub (np_pow10 y) (np_pow10 model) ;;
  ll <- np_div (np_sqr r) sigma2 ;;
  Ok (F.mul (Fin (-0.5)) (np_sum ll)).

Definition log_posterior (theta : theta_t) (x y xerr yerr : ndarray)
  : result float64 :=
  let lp := log_prior theta in
  if negb (F.isfinite lp) then Ok NInf
  else
    l <- log_likelihood theta x y xerr yerr ;;
    Ok (F.add lp l).

Definition log_posterior_sim (theta : theta_t) (x y yerr : ndarray)
  : result float64 :=
  let lp := log_prior theta in
  if negb (F.isfinite lp) then Ok NInf
  else
    l <- log_likelihood_sim theta x y yerr ;;
    Ok (F.add lp l).

(* ------------------------------------------------------------------ *)
(** ** Calls out of the script *)

(** A 2-d array, as the list of its rows. *)
Definition matrix : Type := list (list float64).

(** The stored chain of a sampler: steps x walkers x ndim. *)
Definition chain_t : Type := list matrix.

(** A Python callable applied as [f(theta, *args)]. *)
Definition pyfun : Type := theta_t -> list ndarray -> result float64.

(** scipy's [OptimizeResult]; the script reads only [soln.x]. *)
Record OptimizeResult : Type := { soln_x : theta_t }.

(** What [emcee.EnsembleSampler(nwalkers, ndim, log_prob_fn, args=...)] holds. *)
Record EnsembleSampler : Type := {
  nwalkers : nat;
  ndim : nat;
  log_prob_fn : pyfun;
  args : list ndarray
}.

(** The lines the script prints. *)
Inductive message : Type :=
| MsgMinutes (t : float64)
| MsgAutocorr (t : float64)
| MsgRule
| MsgParams (q m : float64).

Definition bounds_t : Type := list (float64 * float64).

Inductive call : Type -> Type :=
| np_random_seed (n : Z) : call unit
| np_random_randn (d0 d1 : nat) : call matrix
| minimize (f : pyfun) (x0 : theta_t) (a : list ndarray)
    (bounds : option bounds_t) : call OptimizeResult
| Pool_enter : call unit
| Pool_exit : call unit
| sampler_run_mcmc (s : EnsembleSampler) (pos : matrix) (nsteps : nat)
    : call chain_t
| sampler_get_autocorr_time (c : chain_t) : call (list float64)
| time_time : call float64
| print (m : message) : call unit.

(** A script: a tree of calls, each continued with the value it returns. *)
Inductive prog (A : Type) : Type :=
| Ret (a : A)
| Raise (e : exn)
| Vis (X : Type) (c : call X) (k : X -> prog A).

Arguments Ret {A} a.
Arguments Raise {A} e.
Arguments Vis {A X} c k.

Fixpoint pbind {A B : Type} (p : prog A) (k : A -> prog B) : prog B :=
  match p with
  | Ret a => k a
  | Raise e => Raise e
  | Vis c h => Vis c (fun x => pbind (h x) k)
  end.

Definition do {X : Type} (c : call X) : prog X := Vis c Ret.

Definition lift {A : Type} (r : result A) : prog A :=
  match r with
  | Ok a => Ret a
  | Err e => Raise e
  end.

Declare Scope prog_scope.
Delimit Scope prog_scope with prog.
Notation "x <~ c ;; k" := (pbind c (fun x => k))
  (at level 61, c at next level, right associativity) : prog_scope.
Notation "c ;;; k" := (pbind c (fun _ => k))
  (at level 61, right associativity) : prog_scope.
Local Open Scope prog_scope.

(* ------------------------------------------------------------------ *)
(** ** emcee's [get_chain] *)

(** Python's [l[::step]] for [step >= 1]; [k] entries are skipped before the
    next one is kept. *)
Fixpoint every {A : Type} (step k : nat) (l : list A) : list A :=
  match l with
  | [] => []
  | a :: l' =>
      match k with
      | O => a :: every step (step - 1) l'
      | S k' => every step k' l'
      end
  end.

(** [sampler.get_chain(discard=, thin=, flat=True)]: emcee slices the stored
    chain as [chain[discard + thin - 1 : iteration : thin]] and, when flat,
    reshapes (steps, walkers, ndim) to (steps * walkers, ndim).  A zero step
    is refused by the slice. *)
Definition get_chain_flat (chain : chain_t) (discard thin : nat)
  : result matrix :=
  if Nat.eqb thin 0 then Err ValueError
  else Ok (concat (every thin 0 (skipn (discard + thin - 1) chain))).

(* ------------------------------------------------------------------ *)
(** ** Helpers on arrays of the [run_*] functions *)

(** [a[i, :]]. *)
Definition row (a : matrix) (i : nat) : result ndarray :=
  match nth_error a i with
  | Some r => Ok (Array r)
  | None => Err IndexError
  end.

(** [v + c * z] for a 1-d [v] and a 2-d [z], row by row. *)
Fixpoint perturb (v : ndarray) (c : float64) (z : matrix) : result matrix :=
  match z with
  | [] => Ok []
  | r :: z' =>
      cr <- np_mul (Scalar c) (Array r) ;;
      s <- np_add v cr ;;
      rest <- perturb v c z' ;;
      match s with
      | Array l => Ok (l :: rest)
      | Scalar u => Ok ([u] :: rest)
      end
  end%py.

(** [pos.shape] of a 2-d array. *)
Definition shape (a : matrix) : nat * nat :=
  (length a, length (hd [] a)).

(** [np.mean]. *)
Definition np_mean (l : list float64) : float64 :=
  F.div (np_sum (Array l)) (Fin (INR (length l))).

Definition theta_array (t : theta_t) : ndarray := Array [fst t; snd t].

(** [f(theta, *args)] for the four functions the script hands to the
    libraries; a wrong number of arguments is a TypeError. *)
Definition py_log_likelihood : pyfun := fun theta a =>
  match a with
  | [x; y; xerr; yerr] => log_likelihood theta x y xerr yerr
  | _ => Err TypeError
  end.

Definition py_log_likelihood_sim : pyfun := fun theta a =>
  match a with
  | [x; y; yerr] => log_likelihood_sim theta x y yerr
  | _ => Err TypeError
  end.

Definition py_log_posterior : pyfun := fun theta a =>
  match a with
  | [x; y; xerr; yerr] => log_posterior theta x y xerr yerr
  | _ => Err TypeError
  end.

Definition py_log_posterior_sim : pyfun := fun theta a =>
  match a with
  | [x; y; yerr] => log_posterior_sim theta x y yerr
  | _ => Err TypeError
  end.

(** [nl]: the lambda that negates [log_likelihood] of its arguments. *)
Definition nl : pyfun := fun theta a =>
  (l <- py_log_likelihood theta a ;; Ok (F.neg l))%py.

(** [nl]: the lambda that negates [log_likelihood_sim] of its arguments. *)
Definition nl_sim : pyfun := fun theta a =>
  (l <- py_log_likelihood_sim theta a ;; Ok (F.neg l))%py.

(** [initial = np.array([1, 0])]. *)
Definition initial : theta_t := (Fin 1, Fin 0).

(** [bounds = ((-2, 2), (-2, 2))]. *)
Definition bounds : bounds_t := [(Fin (-2), Fin 2); (Fin (-2), Fin 2)].

(* ------------------------------------------------------------------ *)
(** ** The sampling and fitting functions *)

Definition run_mcmc (x y xerr yerr : ndarray) (soln : OptimizeResult)
  : prog matrix :=
  z <~ do (np_random_randn 64 2) ;;
  pos <~ lift (perturb (theta_array (soln_x soln)) (Fin 0.1) z) ;;
  let '(nwalkers, ndim) := shape pos in
  do Pool_enter ;;;
  let sampler := {| nwalkers := nwalkers; ndim := ndim;
                    log_prob_fn := py_log_posterior;
                    args := [x; y; xerr; yerr] |} in
  start <~ do time_time ;;
  chain <~ do (sampler_run_mcmc sampler pos 2000) ;;
  end_ <~ do time_time ;;
  let multi_time := F.sub end_ start in
  do (print (MsgMinutes (F.div multi_time (Fin 60)))) ;;;
  do Pool_exit ;;;
  samples <~ lift (get_chain_flat chain 100 15) ;;
  tau <~ do (sampler_get_autocorr_time chain) ;;
  do (print (MsgAutocorr (np_mean tau))) ;;;
  Ret samples.

Definition run_mcmc_sim (x y yerr : ndarray) (soln : OptimizeResult)
  : prog matrix :=
  z <~ do (np_random_randn 64 2) ;;
  pos <~ lift (perturb (theta_array (soln_x soln)) (Fin 0.1) z) ;;
  let '(nwalkers, ndim) := shape pos in
  do Pool_enter ;;;
  let sampler := {| nwalkers := nwalkers; ndim := ndim;
                    log_prob_fn := py_log_posterior_sim;
                    args := [x; y; yerr] |} in
  start <~ do time_time ;;
  chain <~ do (sampler_run_mcmc sampler pos 2000) ;;
  end_ <~ do time_time ;;
  let multi_time := F.sub end_ start in
  do Pool_exit ;;;
  samples <~ lift (get_chain_flat chain 100 15) ;;
  Ret samples.

Definition run_best_fit (r_p rho_150pc : matrix) : prog matrix :=
  (* Prepare arrays .. *)
  prep <~ lift (
    r0 <- row r_p 0 ;;
    let x := np_log10 r0 in
    r1 <- row r_p 1 ;;
    r2 <- row r_p 2 ;;
    xerr <- np_add (np_sqr r1) (np_sqr r2) ;;
    let xerr := np_sqrt xerr in
    d0 <- row rho_150pc 0 ;;
    d <- np_div d0 (Scalar (Fin 1e7)) ;;
    let y := np_log10 d in
    d1 <- row rho_150pc 1 ;;
    d2 <- row rho_150pc 2 ;;
    yerr <- np_add (np_sqr d1) (np_sqr d2) ;;
    yerr <- np_div (np_sqrt yerr) (Scalar (Fin 1e7)) ;;
    Ok (x, y, xerr, yerr))%py ;;
  let '(x, y, xerr, yerr) := prep in
  (* Make initial fit .. *)
  do (np_random_seed 42) ;;;
  soln <~ do (minimize nl initial [x; y; xerr; yerr] None) ;;
  let '(q, m) := soln_x soln in
  do (print MsgRule) ;;;
  do (print (MsgParams q m)) ;;;
  samples <~ run_mcmc x y xerr yerr soln ;;
  Ret samples.

Definition run_best_fit_for_sim (r_p rho_150pc : ndarray)
  : prog (float64 * float64) :=
  (* Prepare arrays .. *)
  let x := np_log10 r_p in
  prep <~ lift (
    d <- np_div rho_150pc (Scalar (Fin 1e7)) ;;
    let y := np_log10 d in
    n <- len y ;;
    e <- np_mul (np_ones n) (Scalar (Fin 1e5)) ;;
    yerr <- np_div e (Scalar (Fin 1e7)) ;;
    Ok (y, yerr))%py ;;
  let '(y, yerr) := prep in
  (* Make initial fit .. *)
  do (np_random_seed 42) ;;;
  soln <~ do (minimize nl_sim initial [x; y; yerr] (Some bounds)) ;;
  let '(q, m) := soln_x soln in
  Ret (q, m).

Definition run_best_fit_for_sim_with_mcmc (r_p rho_150pc : ndarray)
  : prog matrix :=
  (* Prepare arrays .. *)
  let x := np_log10 r_p in
  prep <~ lift (
    d <- np_div rho_150pc (Scalar (Fin 1e7)) ;;
    let y := np_log10 d in
    n <- len y ;;
    e <- np_mul (np_ones n) (Scalar (Fin 1e5)) ;;
    yerr <- np_div e (Scalar (Fin 1e7)) ;;
    Ok (y, yerr))%py ;;
  let '(y, yerr) := prep in
  (* Make initial fit .. *)
  do (np_random_seed 42) ;;;
  soln <~ do (minimize nl_sim initial [x; y; yerr] (Some bounds)) ;;
  let '(q, m) := soln_x soln in
  samples <~ run_mcmc_sim x y yerr soln ;;
  Ret samples.

(* ------------------------------------------------------------------ *)
(** ** Running a script against the libraries *)

(** An implementation of the libraries.  [G] is the state of numpy's global
    random generator, [E] the rest of the environment (the clock).  Seeding
    fixes the generator's state from the seed alone; the optimizer and the
    sampler are functions of their arguments and of the generator's state. *)
Record world (G E : Type) : Type := {
  seed_state : Z -> G;
  randn : nat -> nat -> G -> matrix * G;
  scipy_minimize : pyfun -> theta_t -> list ndarray -> option bounds_t ->
                   G -> OptimizeResult * G;
  emcee_run : EnsembleSampler -> matrix -> nat -> G -> chain_t * G;
  emcee_autocorr : chain_t -> list float64;
  clock : E -> float64 * E
}.

Arguments seed_state {G E} w.
Arguments randn {G E} w.
Arguments scipy_minimize {G E} w.
Arguments emcee_run {G E} w.
Arguments emcee_autocorr {G E} w.
Arguments clock {G E} w.

(** A call made, without its answer. *)
Inductive event : Type :=
| Event (X : Type) (c : call X).

Arguments Event {X} c.

Section Run.

Context {G E : Type} (w : world G E).

Definition handle {X : Type} (c : call X) (s : G * E) : X * (G * E) :=
  let '(g, e) := s in
  match c in call T return T * (G * E) with
  | np_random_seed n => (tt, (seed_state w n, e))
  | np_random_randn d0 d1 =>
      let '(z, g') := randn w d0 d1 g in (z, (g', e))
  | minimize f x0 a b =>
      let '(r, g') := scipy_minimize w f x0 a b g in (r, (g', e))
  | Pool_enter => (tt, s)
  | Pool_exit => (tt, s)
  | sampler_run_mcmc sm pos n =>
      let '(c, g') := emcee_run w sm pos n g in (c, (g', e))
  | sampler_get_autocorr_time c => (emcee_autocorr w c, s)
  | time_time => let '(t, e') := clock w e in (t, (g, e'))
  | print _ => (tt, s)
  end.

(** The outcome of a script from a state, and the calls it made in order. *)
Fixpoint run {A : Type} (p : prog A) (s : G * E) : result A * list event :=
  match p with
  | Ret a => (Ok a, [])
  | Raise e => (Err e, [])
  | Vis c k =>
      let '(x, s') := handle c s in
      let '(r, t) := run (k x) s' in
      (r, Event c :: t)
  end.

Definition outcome {A : Type} (p : prog A) (s : G * E) : result A :=
  fst (run p s).

Definition trace {A : Type} (p : prog A) (s : G * E) : list event :=
  snd (run p s).

End Run.

(* ------------------------------------------------------------------ *)
(** ** The statements of the specification *)

(** The open box of the prior: both parameters are finite and strictly
    between -2 and 2. *)
Definition in_box (theta : theta_t) : Prop :=
  exists a b : R,
    theta = (Fin a, Fin b) /\ -2 < a < 2 /\ -2 < b < 2.

(** [tab n g] is the array [g 0, ..., g (n-1)]. *)
Definition tab {A : Type} (n : nat) (g : nat -> A) : list A :=
  map g (seq 0 n).

(** The sum over [i < n] of [f i], as [np.sum] takes it. *)
Definition sigma (n : nat) (f : nat -> float64) : float64 :=
  np_sum (Array (tab n f)).

(** The model at one point: [q + m x]. *)
Definition model_at (q m x : float64) : float64 := F.add q (F.mul m x).

(** The effective variance at one point:
    [yerr^2 + (m 10^(q + m x))^2 (xerr / 10^x)^2]. *)
Definition sigma2_at (q m x xerr yerr : float64) : float64 :=
  F.add (F.sqr yerr)
        (F.mul (F.sqr (F.mul m (F.pow10 (model_at q m x))))
               (F.sqr (F.div xerr (F.pow10 x)))).

(** The residual at one point: [10^y - 10^(q + m x)]. *)
Definition resid_at (q m x y : float64) : float64 :=
  F.sub (F.pow10 y) (F.pow10 (model_at q m x)).

(** One term of the Gaussian log-likelihood:
    [resid^2 / sigma2 + ln (2 pi sigma2)]. *)
Definition term_at (q m x y xerr yerr : float64) : float64 :=
  F.add (F.div (F.sqr (resid_at q m x y)) (sigma2_at q m x xerr yerr))
        (F.log (F.mul (Fin (2 * PI)) (sigma2_at q m x xerr yerr))).

(** One term of the chi-square: [resid^2 / yerr^2]. *)
Definition chi2_at (q m x y yerr : float64) : float64 :=
  F.div (F.sqr (resid_at q m x y)) (F.sqr yerr).

(** The sum of the normalization terms [ln (2 pi yerr_i^2)]. *)
Definition normalization (yerr : ndarray) : result float64 :=
  n <- np_mul (Scalar (Fin (2 * PI))) (np_sqr yerr) ;;
  Ok (np_sum (np_log n)).

(** The identity between the two likelihoods as the specification has it:
    the simulation variant is the real-data variant at [xerr = 0] plus half
    the sum of the normalization terms. *)
Definition sim_identity (theta : theta_t) (x y yerr : ndarray) : Prop :=
  log_likelihood_sim theta x y yerr
  = (l <- log_likelihood theta x y (Scalar (Fin 0)) yerr ;;
     n <- normalization yerr ;;
     Ok (F.add l (F.mul (Fin 0.5) n))).

(** +inf or nan: what a division of a square by zero gives. *)
Definition pinf_or_nan (v : float64) : Prop := v = PInf \/ v = NaN.

(** What the simulation fits pass as [y]: [log10(rho / 1e7)]. *)
Definition sim_y (rho : list float64) : ndarray :=
  Array (map (fun v => F.log10 (F.div v (Fin 1e7))) rho).

(** What the simulation fits pass as [yerr]: 0.01 at every point. *)
Definition sim_yerr (rho : list float64) : ndarray :=
  Array (repeat (Fin 0.01) (length rho)).

(** Strictly inside a list of (low, high) bounds, one pair per parameter. *)
Definition within (b : bounds_t) (theta : theta_t) : Prop :=
  match b with
  | [(lq, hq); (lm, hm)] =>
      F.ltb lq (fst theta) = true /\ F.ltb (fst theta) hq = true
      /\ F.ltb lm (snd theta) = true /\ F.ltb (snd theta) hm = true
  | _ => False
  end.

(** The arguments a call hands to the likelihood or the posterior. *)
Definition event_args (ev : event) : option (list ndarray) :=
  match ev with
  | Event (minimize _ _ a _) => Some a
  | Event (sampler_run_mcmc sm _ _) => Some (args sm)
  | Event _ => None
  end.

(** What [run_best_fit] passes as [xerr] and [yerr]: the two error rows
    added in quadrature, the second also divided by 1e7. *)
Definition quad (r1 r2 : list float64) : list float64 :=
  map2 (fun a b => F.sqrt (F.add (F.sqr a) (F.sqr b))) r1 r2.

Definition best_fit_args (p0 p1 p2 d0 d1 d2 : list float64) : list ndarray :=
  [np_log10 (Array p0);
   Array (map (fun v => F.log10 (F.div v (Fin 1e7))) d0);
   Array (quad p1 p2);
   Array (map (fun v => F.div v (Fin 1e7)) (quad d1 d2))].

(** A world for examples: no randomness, an optimizer that returns its
    starting point, a sampler whose walkers sit at the origin. *)
Definition still_world : world unit unit := {|
  seed_state := fun _ => tt;
  randn := fun d0 d1 g => (repeat (repeat (Fin 0) d1) d0, g);
  scipy_minimize := fun _ x0 _ _ g => ({| soln_x := x0 |}, g);
  emcee_run := fun sm pos n g =>
    (repeat (repeat (repeat (Fin 0) (ndim sm)) (nwalkers sm)) n, g);
  emcee_autocorr := fun _ => [Fin 1; Fin 1];
  clock := fun e => (Fin 0, e)
|}.

(** The libraries answer with arrays of the shapes asked for: [randn(d0, d1)]
    has [d0] rows of [d1] entries, and a run of [n] steps stores [n] steps of
    one position per walker. *)
Definition wf_world {G E : Type} (w : world G E) : Prop :=
  (forall d0 d1 g,
      length (fst (randn w d0 d1 g)) = d0
      /\ forall r, In r (fst (randn w d0 d1 g)) -> length r = d1)
  /\ (forall sm pos n g,
         length (fst (emcee_run w sm pos n g)) = n
         /\ forall st, In st (fst (emcee_run w sm pos n g)) ->
                       length st = nwalkers sm).

(** A starting point: the point estimate plus [c] times a draw. *)
Definition perturbed (t : theta_t) (c : float64) (r : list float64)
  : list float64 :=
  [F.add (fst t) (F.mul c (nth 0 r NaN)); F.add (snd t) (F.mul c (nth 1 r NaN))].

Section Final.

Context {G E : Type} (w : world G E).

(** The state of the generator and of the environment a script leaves. *)
Fixpoint final_state {A : Type} (p : prog A) (s : G * E) : G * E :=
  match p with
  | Ret _ => s
  | Raise _ => s
  | Vis c k => let '(x, s') := handle w c s in final_state (k x) s'
  end.

End Final.

(** A value that is not negative: nan, +inf or a finite number that is at
    least 0. *)
Definition nonneg_or_nan (v : float64) : Prop :=
  v = NaN \/ v = PInf \/ exists r : R, v = Fin r /\ 0 <= r.

(* ------------------------------------------------------------------ *)
(** ** Lists and arrays *)

Section Lists.

Context {A B C : Type}.

Lemma length_tab (n : nat) (g : nat -> A) : length (tab n g) = n.
Proof. unfold tab. now rewrite length_map, length_seq. Qed.

Lemma tab_of_list (d : A) (l : list A) :
  l = tab (length l) (fun i => nth i l d).
Proof.
  unfold tab. induction l as [|a l IH]; [reflexivity|].
  cbn [length seq map nth]. f_equal.
  rewrite <- seq_shift, map_map. exact IH.
Qed.

Lemma map_tab (f : A -> B) (n : nat) (g : nat -> A) :
  map f (tab n g) = tab n (fun i => f (g i)).
Proof. unfold tab. now rewrite map_map. Qed.

Lemma map2_map_seq (f : A -> B -> C) (g : nat -> A) (h : nat -> B)
      (l : list nat) :
  map2 f (map g l) (map h l) = map (fun i => f (g i) (h i)) l.
Proof. induction l as [|i l IH]; cbn; [reflexivity|now rewrite IH]. Qed.

Lemma map2_tab (f : A -> B -> C) (n : nat) (g : nat -> A) (h : nat -> B) :
  map2 f (tab n g) (tab n h) = tab n (fun i => f (g i) (h i)).
Proof. apply map2_map_seq. Qed.

Lemma tab_ext (n : nat) (g h : nat -> A) :
  (forall i, (i < n)%nat -> g i = h i) -> tab n g = tab n h.
Proof.
  intros H. unfold tab. apply map_ext_in.
  intros i Hi. apply in_seq in Hi. apply H. lia.
Qed.

End Lists.

Lemma broadcast_tab (f : float64 -> float64 -> float64) (n : nat)
      (g h : nat -> float64) :
  broadcast f (Array (tab n g)) (Array (tab n h))
  = Ok (Array (tab n (fun i => f (g i) (h i)))).
Proof.
  unfold broadcast. rewrite !length_tab, Nat.eqb_refl.
  now rewrite map2_tab.
Qed.

Lemma broadcast_scalar_tab (f : float64 -> float64 -> float64) (n : nat)
      (u : float64) (h : nat -> float64) :
  broadcast f (Scalar u) (Array (tab n h))
  = Ok (Array (tab n (fun i => f u (h i)))).
Proof. unfold broadcast. now rewrite map_tab. Qed.

Lemma ufunc_tab (f : float64 -> float64) (n : nat) (g : nat -> float64) :
  ufunc f (Array (tab n g)) = Array (tab n (fun i => f (g i))).
Proof. unfold ufunc. now rewrite map_tab. Qed.

(** The likelihoods on arrays given point by point. *)
Lemma log_likelihood_tab (q m : float64) (n : nat)
      (x y xerr yerr : nat -> float64) :
  log_likelihood (q, m) (Array (tab n x)) (Array (tab n y))
                 (Array (tab n xerr)) (Array (tab n yerr))
  = Ok (F.mul (Fin (-0.5))
          (sigma n (fun i => term_at q m (x i) (y i) (xerr i) (yerr i)))).
Proof.
  unfold log_likelihood, log_model, np_add, np_sub, np_mul, np_div, np_sqr,
    np_pow10, np_log.
  repeat (rewrite ?broadcast_tab, ?broadcast_scalar_tab, ?ufunc_tab;
          cbn [bind]).
  reflexivity.
Qed.

Lemma log_likelihood_sim_tab (q m : float64) (n : nat)
      (x y yerr : nat -> float64) :
  log_likelihood_sim (q, m) (Array (tab n x)) (Array (tab n y))
                     (Array (tab n yerr))
  = Ok (F.mul (Fin (-0.5))
          (sigma n (fun i => chi2_at q m (x i) (y i) (yerr i)))).
Proof.
  unfold log_likelihood_sim, log_model, np_add, np_sub, np_mul, np_div,
    np_sqr, np_pow10.
  repeat (rewrite ?broadcast_tab, ?broadcast_scalar_tab, ?ufunc_tab;
          cbn [bind]).
  reflexivity.
Qed.

(* ------------------------------------------------------------------ *)
(** ** Arithmetic on float64 *)

(** Decide the comparisons of reals met in a goal. *)
Ltac rdec :=
  repeat match goal with
    | |- context [Rlt_dec ?a ?b] => destruct (Rlt_dec a b); try lra
    | |- context [Rle_dec ?a ?b] => destruct (Rle_dec a b); try lra
    | |- context [Req_dec_T ?a ?b] => destruct (Req_dec_T a b); try lra
    end.

Lemma sqr_neg (a : float64) : F.sqr (F.neg a) = F.sqr a.
Proof.
  destruct a; cbn; try reflexivity.
  f_equal. ring.
Qed.

Lemma np_sqr_neg (a : ndarray) : np_sqr (ufunc F.neg a) = np_sqr a.
Proof.
  destruct a as [v|l]; cbn.
  - now rewrite sqr_neg.
  - rewrite map_map. f_equal. apply map_ext. intros; apply sqr_neg.
Qed.

Lemma add_0_l (a : float64) : F.add (Fin 0) a = a.
Proof. destruct a; cbn; try reflexivity. f_equal. ring. Qed.

Lemma Array_tab (l : list float64) (n : nat) :
  length l = n -> Array l = Array (tab n (fun i => nth i l NaN)).
Proof. intros <-. f_equal. apply tab_of_list. Qed.

(* ------------------------------------------------------------------ *)
(** ** The prior and the posterior *)

Lemma log_prior_cases (theta : theta_t) :
  log_prior theta = Fin 0 \/ log_prior theta = NInf.
Proof.
  destruct theta as [q m]. unfold log_prior.
  destruct (_ && _); auto.
Qed.

Lemma ltb_fin (a b : float64) (c : R) :
  F.ltb a (Fin c) = true -> F.ltb (Fin (- c)) a = true ->
  exists r, a = Fin r /\ - c < r < c.
Proof.
  destruct a as [r| | |]; cbn; try discriminate.
  rdec; try discriminate. intros _ _. exists r. split; [reflexivity|lra].
Qed.

Lemma log_prior_in_box (theta : theta_t) :
  in_box theta -> log_prior theta = Fin 0.
Proof.
  intros (a & b & -> & Ha & Hb). unfold log_prior, F.ltb.
  rdec. reflexivity.
Qed.

Lemma log_prior_out_box (theta : theta_t) :
  ~ in_box theta -> log_prior theta = NInf.
Proof.
  intros H. destruct theta as [q m]. unfold log_prior.
  destruct (F.ltb (Fin (-2)) q) eqn:E1; [|reflexivity].
  destruct (F.ltb q (Fin 2)) eqn:E2; [|reflexivity].
  destruct (F.ltb (Fin (-2)) m) eqn:E3; [|reflexivity].
  destruct (F.ltb m (Fin 2)) eqn:E4; [|reflexivity].
  exfalso. apply H.
  destruct (ltb_fin q (Fin (-2)) 2 E2 E1) as (a & -> & Ha).
  destruct (ltb_fin m (Fin (-2)) 2 E4 E3) as (b & -> & Hb).
  exists a, b. repeat split; lra.
Qed.

(** C4. The prior is 0.0 on the open box -2 < q < 2, -2 < m < 2 and -inf
    everywhere else; in particular it is -inf on the boundary q = +-2 or
    m = +-2, whatever the other parameter is. *)
Theorem log_prior_spec (theta : theta_t) (v : float64) :
  (in_box theta -> log_prior theta = Fin 0)
  /\ (~ in_box theta -> log_prior theta = NInf)
  /\ log_prior (Fin 2, v) = NInf /\ log_prior (Fin (-2), v) = NInf
  /\ log_prior (v, Fin 2) = NInf /\ log_prior (v, Fin (-2)) = NInf.
Proof.
  split; [apply log_prior_in_box|].
  split; [apply log_prior_out_box|].
  repeat split; apply log_prior_out_box;
    intros (a & b & E & Ha & Hb); inversion E; subst; lra.
Qed.

(** C5. When the prior is -inf the posteriors return -inf whatever the data
    are, also data on which the likelihood raises; otherwise they return
    the prior plus the likelihood. *)
Theorem log_posterior_spec (theta : theta_t) (x y xerr yerr : ndarray) :
  (log_prior theta = NInf ->
     log_posterior theta x y xerr yerr = Ok NInf
     /\ log_posterior_sim theta x y yerr = Ok NInf)
  /\ (log_prior theta <> NInf ->
        log_posterior theta x y xerr yerr
        = (l <- log_likelihood theta x y xerr yerr ;;
           Ok (F.add (log_prior theta) l))
        /\ log_posterior_sim theta x y yerr
           = (l <- log_likelihood_sim theta x y yerr ;;
              Ok (F.add (log_prior theta) l))).
Proof.
  unfold log_posterior, log_posterior_sim.
  destruct (log_prior_cases theta) as [-> | ->]; cbn; split;
    try (intros H; discriminate H); try (intros H; now elim H); auto.
Qed.

(** The likelihood is not evaluated under a rejecting prior: on arrays of
    different lengths the likelihood raises, the posterior does not. *)
Example log_posterior_skips_likelihood :
  let x := Array [Fin 0; Fin 0] in
  let y := Array [Fin 0; Fin 0; Fin 0] in
  log_likelihood (Fin 2, Fin 0) x y x x = Err ValueError
  /\ log_posterior (Fin 2, Fin 0) x y x x = Ok NInf.
Proof.
  split.
  - reflexivity.
  - unfold log_posterior.
    rewrite log_prior_out_box; [reflexivity|].
    intros (a & b & E & Ha & Hb). inversion E; subst. lra.
Qed.

(* ------------------------------------------------------------------ *)
(** ** The likelihoods *)

(** C2. On arrays of equal length the real-data likelihood is
    -0.5 * sum_i [ resid_i^2 / sigma2_i + ln (2 pi sigma2_i) ] with
    resid_i = 10^(y_i) - 10^(q + m x_i) and
    sigma2_i = yerr_i^2 + (m 10^(q + m x_i))^2 (xerr_i / 10^(x_i))^2. *)
Theorem log_likelihood_formula (q m : float64)
        (xs ys xerrs yerrs : list float64) :
  length ys = length xs ->
  length xerrs = length xs ->
  length yerrs = length xs ->
  log_likelihood (q, m) (Array xs) (Array ys) (Array xerrs) (Array yerrs)
  = Ok (F.mul (Fin (-0.5))
          (sigma (length xs)
             (fun i =>
                F.add
                  (F.div
                     (F.sqr (F.sub (F.pow10 (nth i ys NaN))
                                   (F.pow10 (F.add q (F.mul m (nth i xs NaN))))))
                     (sigma2_at q m (nth i xs NaN) (nth i xerrs NaN)
                                (nth i yerrs NaN)))
                  (F.log
                     (F.mul (Fin (2 * PI))
                        (sigma2_at q m (nth i xs NaN) (nth i xerrs NaN)
                                   (nth i yerrs NaN))))))).
Proof.
  intros Hy Hxe Hye.
  rewrite (Array_tab xs (length xs) eq_refl), (Array_tab ys _ Hy),
    (Array_tab xerrs _ Hxe), (Array_tab yerrs _ Hye).
  apply log_likelihood_tab.
Qed.

Lemma log_likelihood_formula_witness :
  log_likelihood (Fin 0, Fin 0) (Array [Fin 0]) (Array [Fin 1])
                 (Array [Fin 0]) (Array [Fin 1])
  = Ok (F.mul (Fin (-0.5))
          (sigma 1
             (fun i =>
                F.add
                  (F.div
                     (F.sqr (F.sub (F.pow10 (nth i [Fin 1] NaN))
                                   (F.pow10
                                      (F.add (Fin 0)
                                         (F.mul (Fin 0) (nth i [Fin 0] NaN))))))
                     (sigma2_at (Fin 0) (Fin 0) (nth i [Fin 0] NaN)
                                (nth i [Fin 0] NaN) (nth i [Fin 1] NaN)))
                  (F.log
                     (F.mul (Fin (2 * PI))
                        (sigma2_at (Fin 0) (Fin 0) (nth i [Fin 0] NaN)
                                   (nth i [Fin 0] NaN) (nth i [Fin 1] NaN))))))).
Proof.
  apply (log_likelihood_formula (Fin 0) (Fin 0) [Fin 0] [Fin 1] [Fin 0]
           [Fin 1]); reflexivity.
Defined.

(** C6. Observations whose residuals are opposite give the same likelihood,
    in both variants. *)
Theorem likelihood_sign_flip (theta : theta_t) (x y1 y2 xerr yerr : ndarray)
        (model r1 : ndarray) :
  log_model x (fst theta) (snd theta) = Ok model ->
  np_sub (np_pow10 y1) (np_pow10 model) = Ok r1 ->
  np_sub (np_pow10 y2) (np_pow10 model) = Ok (ufunc F.neg r1) ->
  log_likelihood theta x y1 xerr yerr = log_likelihood theta x y2 xerr yerr
  /\ log_likelihood_sim theta x y1 yerr = log_likelihood_sim theta x y2 yerr.
Proof.
  destruct theta as [q m]. cbn [fst snd]. intros Hm H1 H2.
  unfold log_likelihood, log_likelihood_sim.
  rewrite Hm. cbn [bind]. rewrite H1, H2. cbn [bind].
  rewrite np_sqr_neg. split; reflexivity.
Qed.

Lemma ln_10_pos : 0 < ln 10.
Proof. rewrite <- ln_1. apply ln_increasing; lra. Qed.

Lemma Rpower_10_log2 : Rpower 10 (ln 2 / ln 10) = 2.
Proof.
  unfold Rpower.
  replace (ln 2 / ln 10 * ln 10) with (ln 2)
    by (field; apply Rgt_not_eq, ln_10_pos).
  apply exp_ln; lra.
Qed.

Lemma Rpower_10_0 : Rpower 10 (0 + 0 * 0) = 1.
Proof. replace (0 + 0 * 0) with 0 by ring. apply Rpower_O; lra. Qed.

Lemma Rpower_10_pos (r : R) : 0 < Rpower 10 r.
Proof. unfold Rpower. apply exp_pos. Qed.

Lemma likelihood_sign_flip_witness :
  log_likelihood (Fin 0, Fin 0) (Array [Fin 0]) (Array [NInf])
                 (Array [Fin 1]) (Array [Fin 1])
  = log_likelihood (Fin 0, Fin 0) (Array [Fin 0])
                   (Array [Fin (ln 2 / ln 10)]) (Array [Fin 1]) (Array [Fin 1])
  /\ log_likelihood_sim (Fin 0, Fin 0) (Array [Fin 0]) (Array [NInf])
                        (Array [Fin 1])
     = log_likelihood_sim (Fin 0, Fin 0) (Array [Fin 0])
                          (Array [Fin (ln 2 / ln 10)]) (Array [Fin 1]).
Proof.
  apply (likelihood_sign_flip (Fin 0, Fin 0) (Array [Fin 0]) (Array [NInf])
           (Array [Fin (ln 2 / ln 10)]) (Array [Fin 1]) (Array [Fin 1])
           (Array [Fin (0 + 0 * 0)])
           (Array [Fin (0 + - Rpower 10 (0 + 0 * 0))])).
  - reflexivity.
  - reflexivity.
  - cbn. rewrite Rpower_10_log2, Rpower_10_0.
    replace (2 + - (1)) with (- (0 + - (1))) by lra. reflexivity.
Defined.

(** The likelihood when [xerr] is one number for all points. *)
Lemma log_likelihood_tab_scalar (q m xerr : float64) (n : nat)
      (x y yerr : nat -> float64) :
  log_likelihood (q, m) (Array (tab n x)) (Array (tab n y)) (Scalar xerr)
                 (Array (tab n yerr))
  = Ok (F.mul (Fin (-0.5))
          (sigma n (fun i => term_at q m (x i) (y i) xerr (yerr i)))).
Proof.
  unfold log_likelihood, log_model, np_add, np_sub, np_mul, np_div, np_sqr,
    np_pow10, np_log.
  repeat (rewrite ?broadcast_tab, ?broadcast_scalar_tab, ?ufunc_tab;
          cbn [bind]).
  reflexivity.
Qed.

Lemma Array_tab_fin (l : list R) (n : nat) :
  length l = n ->
  Array (map Fin l) = Array (tab n (fun i => Fin (nth i l 0))).
Proof.
  intros <-. f_equal. rewrite (tab_of_list 0 l) at 1. apply map_tab.
Qed.

(** C3, amended. On arrays of equal length the simulation likelihood is the
    chi-square sum -0.5 * sum_i (10^(y_i) - 10^(q + m x_i))^2 / yerr_i^2 with
    no normalization term; and where the variance of the real-data
    likelihood at [xerr = 0] is [yerr_i^2] at every point, the real-data
    likelihood is -0.5 * sum_i [ (10^(y_i) - 10^(q + m x_i))^2 / yerr_i^2
    + ln (2 pi yerr_i^2) ]: the same terms with the normalization term added
    inside the sum.  Nothing is said of taking the normalization terms out
    of the sum. *)
Theorem sim_likelihood_termwise (q m : float64) (xs ys yerrs : list float64) :
  length ys = length xs ->
  length yerrs = length xs ->
  log_likelihood_sim (q, m) (Array xs) (Array ys) (Array yerrs)
  = Ok (F.mul (Fin (-0.5))
          (sigma (length xs)
             (fun i =>
                F.div
                  (F.sqr (F.sub (F.pow10 (nth i ys NaN))
                                (F.pow10 (F.add q (F.mul m (nth i xs NaN))))))
                  (F.sqr (nth i yerrs NaN)))))
  /\ ((forall i, (i < length xs)%nat ->
         sigma2_at q m (nth i xs NaN) (Fin 0) (nth i yerrs NaN)
         = F.sqr (nth i yerrs NaN)) ->
      log_likelihood (q, m) (Array xs) (Array ys) (Scalar (Fin 0))
                     (Array yerrs)
      = Ok (F.mul (Fin (-0.5))
              (sigma (length xs)
                 (fun i =>
                    F.add
                      (F.div
                         (F.sqr (F.sub (F.pow10 (nth i ys NaN))
                                       (F.pow10
                                          (F.add q (F.mul m (nth i xs NaN))))))
                         (F.sqr (nth i yerrs NaN)))
                      (F.log (F.mul (Fin (2 * PI))
                                    (F.sqr (nth i yerrs NaN)))))))).
Proof.
  intros Hy Hye.
  rewrite (Array_tab xs (length xs) eq_refl), (Array_tab ys _ Hy),
    (Array_tab yerrs _ Hye).
  split.
  - apply log_likelihood_sim_tab.
  - intros Hs. rewrite log_likelihood_tab_scalar.
    do 2 f_equal. unfold sigma. do 2 f_equal.
    apply tab_ext. intros i Hi. unfold term_at. now rewrite (Hs i Hi).
Qed.

Lemma sim_likelihood_termwise_witness :
  log_likelihood (Fin 0, Fin 0) (Array [Fin 0]) (Array [Fin 1])
                 (Scalar (Fin 0)) (Array [Fin 1])
  = Ok (F.mul (Fin (-0.5))
          (sigma (length [Fin 0])
             (fun i =>
                F.add
                  (F.div
                     (F.sqr (F.sub (F.pow10 (nth i [Fin 1] NaN))
                                   (F.pow10
                                      (F.add (Fin 0)
                                         (F.mul (Fin 0) (nth i [Fin 0] NaN))))))
                     (F.sqr (nth i [Fin 1] NaN)))
                  (F.log (F.mul (Fin (2 * PI)) (F.sqr (nth i [Fin 1] NaN))))))).
Proof.
  apply (proj2 (sim_likelihood_termwise (Fin 0) (Fin 0) [Fin 0] [Fin 1]
                  [Fin 1] eq_refl eq_refl)).
  intros i Hi. destruct i as [|i]; [|cbn in Hi; lia].
  unfold sigma2_at, model_at, F.sqr.
  cbn [nth F.add F.mul F.pow10 F.div].
  destruct (Req_dec_T (Rpower 10 0) 0) as [E|_].
  - pose proof (Rpower_10_pos 0). lra.
  - cbn [F.mul F.add]. f_equal. unfold Rdiv. ring.
Defined.

(** C3 as stated fails where an uncertainty is zero: the simulation
    likelihood is -inf there, the real-data likelihood is nan. *)
Lemma sim_identity_fails_at_zero_yerr :
  ~ sim_identity (Fin 0, Fin 0) (Array [Fin 0]) (Array [Fin 1])
      (Array [Fin 0]).
Proof.
  unfold sim_identity, log_likelihood_sim, log_likelihood, normalization,
    log_model.
  cbn. rewrite Rpower_10_0, Rpower_1 by lra.
  unfold F.signed_inf. 
  assert (H9 : 0 < (10 + - (1)) * (10 + - (1))) by lra.
  pose proof PI_RGT_0.
  rdec; cbn; unfold F.signed_inf; rdec; try discriminate.
Qed.

(** The two values at that input. *)
Example zero_yerr_values :
  log_likelihood_sim (Fin 0, Fin 0) (Array [Fin 0]) (Array [Fin 1])
                     (Array [Fin 0]) = Ok NInf
  /\ log_likelihood (Fin 0, Fin 0) (Array [Fin 0]) (Array [Fin 1])
                    (Scalar (Fin 0)) (Array [Fin 0]) = Ok NaN.
Proof.
  unfold log_likelihood_sim, log_likelihood, log_model.
  cbn. rewrite Rpower_10_0, Rpower_1 by lra.
  unfold F.signed_inf.
  assert (H9 : 0 < (10 + - (1)) * (10 + - (1))) by lra.
  pose proof PI_RGT_0.
  split; rdec; cbn; unfold F.signed_inf; rdec; reflexivity.
Qed.

(* ------------------------------------------------------------------ *)
(** ** Zero variance *)

Section SumClosed.

Variable P : float64 -> Prop.
Hypothesis P_add : forall a b, P a -> P b -> P (F.add a b).

Lemma fold_add_closed (l : list float64) (acc : float64) :
  P acc -> (forall v, In v l -> P v) -> P (fold_left F.add l acc).
Proof.
  revert acc. induction l as [|a l IH]; intros acc Hacc Hl; cbn.
  - exact Hacc.
  - apply IH.
    + apply P_add; [exact Hacc|apply Hl; now left].
    + intros v Hv. apply Hl. now right.
Qed.

Lemma sigma_closed (n : nat) (f : nat -> float64) :
  (0 < n)%nat -> (forall i, (i < n)%nat -> P (f i)) -> P (sigma n f).
Proof.
  intros Hn Hf. unfold sigma, np_sum, tab.
  destruct n as [|n]; [lia|].
  cbn [seq map fold_left]. rewrite add_0_l.
  apply fold_add_closed.
  - apply Hf. lia.
  - intros v Hv. apply in_map_iff in Hv. destruct Hv as (i & <- & Hi).
    apply in_seq in Hi. apply Hf. lia.
Qed.

End SumClosed.

Lemma pinf_or_nan_add (a b : float64) :
  pinf_or_nan a -> pinf_or_nan b -> pinf_or_nan (F.add a b).
Proof. intros [-> | ->] [-> | ->]; cbn; unfold pinf_or_nan; auto. Qed.

Lemma nan_add (a b : float64) : a = NaN -> b = NaN -> F.add a b = NaN.
Proof. now intros -> ->. Qed.

Lemma sqr_div_zero (r s : R) :
  s = 0 -> pinf_or_nan (F.div (F.sqr (Fin r)) (Fin s)).
Proof.
  intros ->. cbn. unfold F.signed_inf, pinf_or_nan.
  assert (0 <= r * r) by nra. rdec; auto.
Qed.

Lemma repeat_tab {A : Type} (a : A) (n : nat) :
  repeat a n = tab n (fun _ => a).
Proof.
  unfold tab. induction n as [|n IH]; [reflexivity|].
  cbn [repeat]. rewrite IH. cbn [seq map]. f_equal.
  now rewrite <- seq_shift, map_map.
Qed.

Lemma sigma2_at_zero (q m x xe : R) :
  m = 0 \/ xe = 0 ->
  sigma2_at (Fin q) (Fin m) (Fin x) (Fin xe) (Fin 0) = Fin 0.
Proof.
  intros H. unfold sigma2_at, model_at, F.sqr. cbn.
  destruct (Req_dec_T (Rpower 10 x) 0) as [E|_].
  - pose proof (Rpower_10_pos x). lra.
  - cbn. f_equal. unfold Rdiv. destruct H as [-> | ->]; ring.
Qed.

Lemma term_at_zero (q m x y xe : R) :
  m = 0 \/ xe = 0 ->
  term_at (Fin q) (Fin m) (Fin x) (Fin y) (Fin xe) (Fin 0) = NaN.
Proof.
  intros H. unfold term_at. rewrite (sigma2_at_zero q m x xe H).
  unfold resid_at, model_at.
  destruct (sqr_div_zero (Rpower 10 y + - Rpower 10 (q + m * x)) 0 eq_refl)
    as [E | E]; cbn in E |- *; rewrite E; cbn; rdec; reflexivity.
Qed.

Lemma chi2_at_zero (q m x y : R) :
  pinf_or_nan (chi2_at (Fin q) (Fin m) (Fin x) (Fin y) (Fin 0)).
Proof.
  unfold chi2_at, resid_at, model_at.
  apply (sqr_div_zero (Rpower 10 y + - Rpower 10 (q + m * x)) (0 * 0)).
  ring.
Qed.

(** C9. Nothing guards the division by the variance.  On finite data of
    equal length, not empty, with every [yerr_i] zero and either [m = 0] or
    every [xerr_i] zero, the variance is exactly zero at every point, both
    likelihoods return without raising, and what they return is not finite:
    nan for the real-data variant, -inf or nan for the simulation variant. *)
Theorem zero_variance_not_guarded (q m : R) (xs ys xes : list R) :
  xs <> [] ->
  length ys = length xs ->
  length xes = length xs ->
  (m = 0 \/ forall e, In e xes -> e = 0) ->
  let n := length xs in
  let theta := (Fin q, Fin m) in
  let x := Array (map Fin xs) in
  let y := Array (map Fin ys) in
  let xerr := Array (map Fin xes) in
  let yerr := Array (repeat (Fin 0) n) in
  (forall i, (i < n)%nat ->
     sigma2_at (Fin q) (Fin m) (Fin (nth i xs 0)) (Fin (nth i xes 0)) (Fin 0)
     = Fin 0)
  /\ log_likelihood theta x y xerr yerr = Ok NaN
  /\ exists v, log_likelihood_sim theta x y yerr = Ok v
               /\ F.isfinite v = false.
Proof.
  intros Hne Hy Hxe Hz. cbn zeta.
  set (n := length xs).
  assert (Hn : (0 < n)%nat).
  { subst n. destruct xs; [congruence|cbn; lia]. }
  assert (Hi : forall i, (i < n)%nat -> m = 0 \/ nth i xes 0 = 0).
  { intros i Hlt. destruct Hz as [Hm | Hx]; [now left|right].
    apply Hx, nth_In. now rewrite Hxe. }
  rewrite (Array_tab_fin xs n eq_refl), (Array_tab_fin ys n Hy),
    (Array_tab_fin xes n Hxe), repeat_tab.
  rewrite log_likelihood_tab, log_likelihood_sim_tab.
  split; [|split].
  - intros i Hlt. apply sigma2_at_zero, Hi, Hlt.
  - rewrite (sigma_closed (fun v => v = NaN) nan_add n _ Hn); [reflexivity|].
    intros i Hlt. apply term_at_zero, Hi, Hlt.
  - destruct (sigma_closed pinf_or_nan pinf_or_nan_add n
                (fun i => chi2_at (Fin q) (Fin m) (Fin (nth i xs 0))
                            (Fin (nth i ys 0)) (Fin 0)) Hn) as [E | E].
    + intros i _. apply chi2_at_zero.
    + rewrite E. eexists; split; [reflexivity|].
      cbn. unfold F.signed_inf. rdec. reflexivity.
    + rewrite E. eexists; split; reflexivity.
Qed.

Lemma zero_variance_not_guarded_witness :
  (forall i, (i < 1)%nat ->
     sigma2_at (Fin 0) (Fin 0) (Fin (nth i [0] 0)) (Fin (nth i [0] 0)) (Fin 0)
     = Fin 0)
  /\ log_likelihood (Fin 0, Fin 0) (Array (map Fin [0]))
                    (Array (map Fin [1])) (Array (map Fin [0]))
                    (Array (repeat (Fin 0) 1)) = Ok NaN
  /\ exists v, log_likelihood_sim (Fin 0, Fin 0) (Array (map Fin [0]))
                 (Array (map Fin [1])) (Array (repeat (Fin 0) 1)) = Ok v
               /\ F.isfinite v = false.
Proof.
  apply (zero_variance_not_guarded 0 0 [0] [1] [0]).
  - discriminate.
  - reflexivity.
  - reflexivity.
  - left. reflexivity.
Defined.

(* ------------------------------------------------------------------ *)
(** ** Running scripts *)

Section RunFacts.

Context {G E : Type} (w : world G E).

Lemma outcome_Vis {A X : Type} (c : call X) (k : X -> prog A) (s : G * E) :
  outcome w (Vis c k) s
  = outcome w (k (fst (handle w c s))) (snd (handle w c s)).
Proof.
  unfold outcome. cbn [run].
  destruct (handle w c s) as [x s']. cbn [fst snd].
  now destruct (run w (k x) s').
Qed.

Lemma trace_Vis {A X : Type} (c : call X) (k : X -> prog A) (s : G * E) :
  trace w (Vis c k) s
  = Event c :: trace w (k (fst (handle w c s))) (snd (handle w c s)).
Proof.
  unfold trace. cbn [run].
  destruct (handle w c s) as [x s']. cbn [fst snd].
  now destruct (run w (k x) s').
Qed.

Lemma handle_seed (n : Z) (s : G * E) :
  handle w (np_random_seed n) s = (tt, (seed_state w n, snd s)).
Proof. now destruct s. Qed.

Lemma handle_minimize (f : pyfun) (x0 : theta_t) (a : list ndarray)
      (b : option bounds_t) (s : G * E) :
  handle w (minimize f x0 a b) s
  = (fst (scipy_minimize w f x0 a b (fst s)),
     (snd (scipy_minimize w f x0 a b (fst s)), snd s)).
Proof. destruct s as [g e]. cbn. now destruct (scipy_minimize w f x0 a b g). Qed.

Lemma handle_randn (d0 d1 : nat) (s : G * E) :
  handle w (np_random_randn d0 d1) s
  = (fst (randn w d0 d1 (fst s)), (snd (randn w d0 d1 (fst s)), snd s)).
Proof. destruct s as [g e]. cbn. now destruct (randn w d0 d1 g). Qed.

Lemma handle_run_mcmc (sm : EnsembleSampler) (pos : matrix) (n : nat)
      (s : G * E) :
  handle w (sampler_run_mcmc sm pos n) s
  = (fst (emcee_run w sm pos n (fst s)),
     (snd (emcee_run w sm pos n (fst s)), snd s)).
Proof. destruct s as [g e]. cbn. now destruct (emcee_run w sm pos n g). Qed.

Lemma handle_time (s : G * E) :
  handle w time_time s = (fst (clock w (snd s)), (fst s, snd (clock w (snd s)))).
Proof. destruct s as [g e]. cbn. now destruct (clock w e). Qed.

Lemma handle_pool_enter (s : G * E) : handle w Pool_enter s = (tt, s).
Proof. now destruct s. Qed.

Lemma handle_pool_exit (s : G * E) : handle w Pool_exit s = (tt, s).
Proof. now destruct s. Qed.

Lemma handle_print (m : message) (s : G * E) : handle w (print m) s = (tt, s).
Proof. now destruct s. Qed.

Lemma handle_autocorr (c : chain_t) (s : G * E) :
  handle w (sampler_get_autocorr_time c) s = (emcee_autocorr w c, s).
Proof. now destruct s. Qed.

End RunFacts.

(* ------------------------------------------------------------------ *)
(** ** The point-estimate fits *)

Lemma const_yerr (n : nat) :
  map (fun u => F.div u (Fin 1e7))
      (map (fun u => F.mul u (Fin 1e5)) (repeat (Fin 1) n))
  = repeat (Fin 0.01) n.
Proof.
  rewrite !map_repeat. f_equal. cbn [F.div F.mul].
  destruct (Req_dec_T 1e7 0) as [E|_]; [lra|].
  f_equal. lra.
Qed.

Lemma sim_prep (l : list float64) :
  (d <- np_div (Array l) (Scalar (Fin 1e7)) ;;
   let y := np_log10 d in
   n <- len y ;;
   e <- np_mul (np_ones n) (Scalar (Fin 1e5)) ;;
   yerr <- np_div e (Scalar (Fin 1e7)) ;;
   Ok (y, yerr))%py
  = Ok (sim_y l, sim_yerr l).
Proof.
  unfold np_div, np_mul, np_ones, np_log10, len, broadcast, ufunc.
  cbn [bind]. rewrite const_yerr, !length_map, map_map. reflexivity.
Qed.

Section FitFacts.

Context {G E : Type} (w : world G E).

Lemma trace_run_best_fit_for_sim (r_p : ndarray) (l : list float64)
      (s : G * E) :
  trace w (run_best_fit_for_sim r_p (Array l)) s
  = [Event (np_random_seed 42);
     Event (minimize nl_sim initial [np_log10 r_p; sim_y l; sim_yerr l]
              (Some bounds))].
Proof.
  unfold run_best_fit_for_sim. rewrite sim_prep.
  cbn [lift pbind do]. rewrite !trace_Vis.
  do 2 f_equal.
  destruct (soln_x _) as [q m]. reflexivity.
Qed.

Lemma outcome_run_best_fit_for_sim (r_p : ndarray) (l : list float64)
      (s : G * E) :
  outcome w (run_best_fit_for_sim r_p (Array l)) s
  = Ok (soln_x (fst (scipy_minimize w nl_sim initial
                       [np_log10 r_p; sim_y l; sim_yerr l] (Some bounds)
                       (seed_state w 42)))).
Proof.
  unfold run_best_fit_for_sim. rewrite sim_prep.
  cbn [lift pbind do]. rewrite !outcome_Vis, handle_seed.
  cbn [fst snd]. rewrite handle_minimize. cbn [fst snd].
  destruct (soln_x _) as [q m]. reflexivity.
Qed.

Lemma run_pbind_Ret {A : Type} (p : prog A) (s : G * E) :
  run w (pbind p Ret) s = run w p s.
Proof.
  revert s. induction p as [a|e|X c k IH]; intros s; cbn [pbind run];
    try reflexivity.
  destruct (handle w c s) as [x s']. now rewrite IH.
Qed.

Lemma trace_pbind_Ret {A : Type} (p : prog A) (s : G * E) :
  trace w (pbind p Ret) s = trace w p s.
Proof. unfold trace. now rewrite run_pbind_Ret. Qed.

Lemma outcome_pbind_Ret {A : Type} (p : prog A) (s : G * E) :
  outcome w (pbind p Ret) s = outcome w p s.
Proof. unfold outcome. now rewrite run_pbind_Ret. Qed.

Lemma trace_run_best_fit_for_sim_with_mcmc (r_p : ndarray)
      (l : list float64) (s : G * E) :
  let a := [np_log10 r_p; sim_y l; sim_yerr l] in
  let r := scipy_minimize w nl_sim initial a (Some bounds) (seed_state w 42) in
  trace w (run_best_fit_for_sim_with_mcmc r_p (Array l)) s
  = Event (np_random_seed 42)
    :: Event (minimize nl_sim initial a (Some bounds))
    :: trace w (run_mcmc_sim (np_log10 r_p) (sim_y l) (sim_yerr l) (fst r))
         (snd r, snd s).
Proof.
  cbn zeta. unfold run_best_fit_for_sim_with_mcmc. rewrite sim_prep.
  cbn [lift pbind do]. rewrite !trace_Vis, handle_seed.
  cbn [fst snd]. rewrite handle_minimize. cbn [fst snd].
  do 2 f_equal.
  destruct (soln_x _) as [q m]. apply trace_pbind_Ret.
Qed.

(** The calls of [run_mcmc_sim]: the draw of the starting points and, when
    they have a shape, the pool, the clock and the sampler. *)
Lemma trace_run_mcmc_sim (x y yerr : ndarray) (soln : OptimizeResult)
      (s : G * E) :
  trace w (run_mcmc_sim x y yerr soln) s = [Event (np_random_randn 64 2)]
  \/ exists pos,
       trace w (run_mcmc_sim x y yerr soln) s
       = [Event (np_random_randn 64 2); Event Pool_enter; Event time_time;
          Event (sampler_run_mcmc
                   {| nwalkers := fst (shape pos); ndim := snd (shape pos);
                      log_prob_fn := py_log_posterior_sim;
                      args := [x; y; yerr] |} pos 2000);
          Event time_time; Event Pool_exit].
Proof.
  unfold run_mcmc_sim. cbn [pbind do]. rewrite trace_Vis.
  destruct (perturb _ _ _) as [pos|e]; cbn [lift pbind].
  - right. exists pos.
    destruct (shape pos) as [nw nd] eqn:Es. cbn [fst snd pbind do].
    rewrite !trace_Vis. unfold get_chain_flat. cbn [Nat.eqb lift pbind].
    reflexivity.
  - left. reflexivity.
Qed.

End FitFacts.

Lemma map2_map {A B C D F : Type} (f : C -> D -> F) (g : A -> C) (h : B -> D)
      (l1 : list A) (l2 : list B) :
  map2 f (map g l1) (map h l2) = map2 (fun a b => f (g a) (h b)) l1 l2.
Proof.
  revert l2. induction l1 as [|a l1 IH]; intros [|b l2]; cbn;
    try reflexivity.
  now rewrite IH.
Qed.

Lemma map_map2 {A B C D : Type} (f : C -> D) (g : A -> B -> C)
      (l1 : list A) (l2 : list B) :
  map f (map2 g l1 l2) = map2 (fun a b => f (g a b)) l1 l2.
Proof.
  revert l2. induction l1 as [|a l1 IH]; intros [|b l2]; cbn;
    try reflexivity.
  now rewrite IH.
Qed.

Lemma best_fit_prep (p0 p1 p2 d0 d1 d2 : list float64) (rp rd : matrix) :
  length p1 = length p2 ->
  length d1 = length d2 ->
  let r_p := p0 :: p1 :: p2 :: rp in
  let rho_150pc := d0 :: d1 :: d2 :: rd in
  (r0 <- row r_p 0 ;;
   let x := np_log10 r0 in
   r1 <- row r_p 1 ;;
   r2 <- row r_p 2 ;;
   xerr <- np_add (np_sqr r1) (np_sqr r2) ;;
   let xerr := np_sqrt xerr in
   d0 <- row rho_150pc 0 ;;
   d <- np_div d0 (Scalar (Fin 1e7)) ;;
   let y := np_log10 d in
   d1 <- row rho_150pc 1 ;;
   d2 <- row rho_150pc 2 ;;
   yerr <- np_add (np_sqr d1) (np_sqr d2) ;;
   yerr <- np_div (np_sqrt yerr) (Scalar (Fin 1e7)) ;;
   Ok (x, y, xerr, yerr))%py
  = Ok (np_log10 (Array p0),
        Array (map (fun v => F.log10 (F.div v (Fin 1e7))) d0),
        Array (quad p1 p2),
        Array (map (fun v => F.div v (Fin 1e7)) (quad d1 d2))).
Proof.
  intros Hp Hd. cbn zeta.
  unfold row, np_add, np_div, np_sqr, np_sqrt, np_log10, broadcast, ufunc.
  cbn [nth_error bind].
  rewrite !length_map, Hp, Hd, !Nat.eqb_refl. cbn [bind].
  unfold quad. rewrite !map2_map, !map_map2, !map_map. reflexivity.
Qed.

Section BestFit.

Context {G E : Type} (w : world G E).

Lemma trace_run_best_fit (p0 p1 p2 d0 d1 d2 : list float64) (rp rd : matrix)
      (s : G * E) :
  length p1 = length p2 ->
  length d1 = length d2 ->
  firstn 2 (trace w (run_best_fit (p0 :: p1 :: p2 :: rp)
                                  (d0 :: d1 :: d2 :: rd)) s)
  = [Event (np_random_seed 42);
     Event (minimize nl initial (best_fit_args p0 p1 p2 d0 d1 d2) None)].
Proof.
  intros Hp Hd. unfold run_best_fit.
  pose proof (best_fit_prep p0 p1 p2 d0 d1 d2 rp rd Hp Hd) as Hprep.
  cbn zeta in Hprep. rewrite Hprep.
  cbn [lift pbind do]. rewrite !trace_Vis. reflexivity.
Qed.

End BestFit.

Lemma within_bounds_prior (theta : theta_t) :
  within bounds theta <-> log_prior theta = Fin 0.
Proof.
  destruct theta as [q m]. unfold within, bounds, log_prior. cbn [fst snd].
  split.
  - intros (-> & -> & -> & ->). reflexivity.
  - destruct (F.ltb (Fin (-2)) q), (F.ltb q (Fin 2)),
      (F.ltb (Fin (-2)) m), (F.ltb m (Fin 2)); cbn; intros H;
      try discriminate H; auto.
Qed.

(** C7. Each fit seeds numpy's generator with 42 and then minimizes from
    (q, m) = (1, 0): [run_best_fit] the negated [log_likelihood] with no
    bounds, the two simulation fits the negated [log_likelihood_sim] with
    the bounds ((-2, 2), (-2, 2)), which are the box of the prior. *)
Theorem fits_minimize_negated_likelihood
        {G E : Type} (w : world G E) (s : G * E)
        (p0 p1 p2 d0 d1 d2 : list float64) (rp rd : matrix)
        (r_p : ndarray) (rho : list float64) :
  length p1 = length p2 ->
  length d1 = length d2 ->
  firstn 2 (trace w (run_best_fit (p0 :: p1 :: p2 :: rp)
                                  (d0 :: d1 :: d2 :: rd)) s)
  = [Event (np_random_seed 42);
     Event (minimize nl initial (best_fit_args p0 p1 p2 d0 d1 d2) None)]
  /\ trace w (run_best_fit_for_sim r_p (Array rho)) s
     = [Event (np_random_seed 42);
        Event (minimize nl_sim initial
                 [np_log10 r_p; sim_y rho; sim_yerr rho] (Some bounds))]
  /\ firstn 2 (trace w (run_best_fit_for_sim_with_mcmc r_p (Array rho)) s)
     = [Event (np_random_seed 42);
        Event (minimize nl_sim initial
                 [np_log10 r_p; sim_y rho; sim_yerr rho] (Some bounds))]
  /\ (forall theta x y xerr yerr,
        nl theta [x; y; xerr; yerr]
        = (l <- log_likelihood theta x y xerr yerr ;; Ok (F.neg l)))
  /\ (forall theta x y yerr,
        nl_sim theta [x; y; yerr]
        = (l <- log_likelihood_sim theta x y yerr ;; Ok (F.neg l)))
  /\ initial = (Fin 1, Fin 0)
  /\ bounds = [(Fin (-2), Fin 2); (Fin (-2), Fin 2)]
  /\ (forall theta, within bounds theta <-> log_prior theta = Fin 0).
Proof.
  intros Hp Hd.
  split; [now apply trace_run_best_fit|].
  split; [apply trace_run_best_fit_for_sim|].
  split; [now rewrite trace_run_best_fit_for_sim_with_mcmc|].
  split; [reflexivity|]. split; [reflexivity|].
  split; [reflexivity|]. split; [reflexivity|].
  apply within_bounds_prior.
Qed.

Lemma fits_minimize_negated_likelihood_witness :
  firstn 2 (trace still_world
              (run_best_fit ([Fin 1] :: [Fin 1] :: [Fin 1] :: [])
                            ([Fin 1] :: [Fin 1] :: [Fin 1] :: [])) (tt, tt))
  = [Event (np_random_seed 42);
     Event (minimize nl initial
              (best_fit_args [Fin 1] [Fin 1] [Fin 1] [Fin 1] [Fin 1] [Fin 1])
              None)].
Proof.
  exact (proj1 (fits_minimize_negated_likelihood still_world (tt, tt)
                  [Fin 1] [Fin 1] [Fin 1] [Fin 1] [Fin 1] [Fin 1] [] []
                  (Array [Fin 1]) [Fin 1] eq_refl eq_refl)).
Defined.

(** C8. [run_best_fit_for_sim] is deterministic: on equal inputs it returns
    the same (q, m), and makes the same calls, from any two states of the
    random generator and of the environment, since it seeds the generator
    before it calls the optimizer and reads nothing else. *)
Theorem run_best_fit_for_sim_deterministic
        {G E : Type} (w : world G E) (r_p rho_150pc : ndarray)
        (s1 s2 : G * E) :
  outcome w (run_best_fit_for_sim r_p rho_150pc) s1
  = outcome w (run_best_fit_for_sim r_p rho_150pc) s2
  /\ trace w (run_best_fit_for_sim r_p rho_150pc) s1
     = trace w (run_best_fit_for_sim r_p rho_150pc) s2.
Proof.
  destruct rho_150pc as [v|l].
  - split; reflexivity.
  - now rewrite !outcome_run_best_fit_for_sim, !trace_run_best_fit_for_sim.
Qed.

(** C10. In both simulation fits the [yerr] handed to the likelihood, by the
    optimizer and by the sampler, is not read from the data: whatever
    [rho_150pc] is, it is the array of [len(y)] entries all equal to
    1e5 / 1e7 = 0.01, next to [y = log10(rho_150pc / 1e7)]. *)
Theorem sim_yerr_is_constant
        {G E : Type} (w : world G E) (s : G * E) (r_p : ndarray)
        (rho : list float64) :
  let y := Array (map (fun v => F.log10 (F.div v (Fin 1e7))) rho) in
  let yerr := Array (repeat (Fin 0.01) (length rho)) in
  Fin (1e5 / 1e7) = Fin 0.01
  /\ len y = Ok (length rho)
  /\ In (Event (minimize nl_sim initial [np_log10 r_p; y; yerr] (Some bounds)))
        (trace w (run_best_fit_for_sim r_p (Array rho)) s)
  /\ In (Event (minimize nl_sim initial [np_log10 r_p; y; yerr] (Some bounds)))
        (trace w (run_best_fit_for_sim_with_mcmc r_p (Array rho)) s)
  /\ (forall ev a,
        In ev (trace w (run_best_fit_for_sim r_p (Array rho)) s) ->
        event_args ev = Some a -> a = [np_log10 r_p; y; yerr])
  /\ (forall ev a,
        In ev (trace w (run_best_fit_for_sim_with_mcmc r_p (Array rho)) s) ->
        event_args ev = Some a -> a = [np_log10 r_p; y; yerr]).
Proof.
  cbn zeta.
  change (Array (map (fun v => F.log10 (F.div v (Fin 1e7))) rho))
    with (sim_y rho).
  change (Array (repeat (Fin 0.01) (length rho))) with (sim_yerr rho).
  rewrite trace_run_best_fit_for_sim, trace_run_best_fit_for_sim_with_mcmc.
  split; [f_equal; lra|].
  split; [unfold sim_y, len; now rewrite length_map|].
  split; [right; now left|].
  split; [right; now left|].
  split.
  - intros ev a [<- | [<- | []]]; cbn; congruence.
  - intros ev a [<- | [<- | Hin]]; cbn; try congruence.
    revert Hin.
    match goal with
    | |- In _ (trace _ (run_mcmc_sim ?x ?y ?e ?sl) ?st) -> _ =>
        destruct (trace_run_mcmc_sim w x y e sl st) as [-> | (pos & ->)]
    end.
    + intros [<- | []]; cbn; congruence.
    + intros [<- | [<- | [<- | [<- | [<- | [<- | []]]]]]]; cbn; congruence.
Qed.

(* ------------------------------------------------------------------ *)
(** ** The sampling *)

Lemma length_every {A : Type} (step : nat) (l : list A) (k : nat) :
  (k < step)%nat ->
  length (every step k l) = ((length l + (step - 1 - k)) / step)%nat.
Proof.
  revert k. induction l as [|a l IH]; intros k Hk.
  - cbn [every length]. symmetry. apply Nat.div_small. lia.
  - destruct k as [|k]; cbn [every length].
    + rewrite IH by lia.
      replace (S (length l) + (step - 1 - 0))%nat
        with (length l + 1 * step)%nat by lia.
      rewrite Nat.div_add by lia.
      replace (step - 1 - (step - 1))%nat with 0%nat by lia.
      rewrite Nat.add_0_r. lia.
    + rewrite IH by lia. f_equal. lia.
Qed.

Lemma In_every {A : Type} (step : nat) (l : list A) (k : nat) (a : A) :
  In a (every step k l) -> In a l.
Proof.
  revert k. induction l as [|b l IH]; intros k; cbn [every]; [easy|].
  destruct k as [|k].
  - intros [<- | H]; [now left|right; eauto].
  - intros H. right. eauto.
Qed.

Lemma length_concat_const {A : Type} (n : nat) (l : list (list A)) :
  (forall r, In r l -> length r = n) ->
  length (concat l) = (n * length l)%nat.
Proof.
  induction l as [|r l IH]; intros H; cbn [concat length]; [lia|].
  rewrite length_app, (H r) by now left.
  rewrite IH by (intros r' Hr'; apply H; now right). lia.
Qed.

(** The flattened chain has [walkers * floor((steps - discard) / thin)]
    samples. *)
Lemma length_get_chain_flat (chain : chain_t) (discard thin nw : nat)
      (samples : matrix) :
  (forall st, In st chain -> length st = nw) ->
  get_chain_flat chain discard thin = Ok samples ->
  length samples = (nw * ((length chain - discard) / thin))%nat.
Proof.
  intros Hw. unfold get_chain_flat.
  destruct (Nat.eqb_spec thin 0) as [|Ht]; [discriminate|].
  intros [= <-].
  rewrite (length_concat_const nw).
  - rewrite length_every, length_skipn by lia. f_equal.
    destruct (Nat.le_gt_cases (discard + thin - 1) (length chain)) as [H|H].
    + f_equal. lia.
    + rewrite !Nat.div_small by lia. reflexivity.
  - intros r Hr. apply Hw. apply In_every in Hr.
    revert Hr. generalize (discard + thin - 1)%nat. intros n Hr.
    rewrite <- (firstn_skipn n chain). apply in_or_app. now right.
Qed.

Lemma perturb_rows (t : theta_t) (c : float64) (z : matrix) :
  (forall r, In r z -> length r = 2%nat) ->
  perturb (theta_array t) c z = Ok (map (perturbed t c) z).
Proof.
  induction z as [|r z IH]; intros H; [reflexivity|].
  cbn [perturb map]. rewrite IH by (intros; apply H; now right).
  assert (Hr : length r = 2%nat) by (apply H; now left).
  destruct r as [|a [|b [|? ?]]]; try discriminate Hr.
  reflexivity.
Qed.

Section Sampling.

Context {G E : Type} (w : world G E).
Hypothesis Hwf : wf_world w.

Variables (x y xerr yerr : ndarray) (soln : OptimizeResult) (s : G * E).

Let z : matrix := fst (randn w 64 2 (fst s)).
Let pos : matrix := map (perturbed (soln_x soln) (Fin 0.1)) z.
Let sampler : EnsembleSampler :=
  {| nwalkers := 64; ndim := 2; log_prob_fn := py_log_posterior;
     args := [x; y; xerr; yerr] |}.
Let chain : chain_t :=
  fst (emcee_run w sampler pos 2000 (snd (randn w 64 2 (fst s)))).

Lemma shape_pos : shape pos = (64%nat, 2%nat).
Proof.
  destruct Hwf as [Hr _]. destruct (Hr 64%nat 2%nat (fst s)) as [Hl Hrow].
  unfold shape, pos. fold z in Hl, Hrow. rewrite length_map, Hl.
  f_equal. destruct z as [|r z']; [discriminate Hl|reflexivity].
Qed.

Lemma run_mcmc_run :
  run w (run_mcmc x y xerr yerr soln) s
  = (Ok (concat (every 15 0 (skipn 114 chain))),
     [Event (np_random_randn 64 2); Event Pool_enter; Event time_time;
      Event (sampler_run_mcmc sampler pos 2000); Event time_time;
      Event (print (MsgMinutes
                      (F.div (F.sub (fst (clock w (snd (clock w (snd s)))))
                                    (fst (clock w (snd s))))
                             (Fin 60))));
      Event Pool_exit;
      Event (sampler_get_autocorr_time chain);
      Event (print (MsgAutocorr (np_mean (emcee_autocorr w chain))))]).
Proof.
  assert (Hrun : forall A (p : prog A) st,
             run w p st = (outcome w p st, trace w p st)).
  { intros. unfold outcome, trace. now destruct (run w p st). }
  rewrite Hrun. unfold run_mcmc. cbn [pbind do].
  rewrite outcome_Vis, trace_Vis, handle_randn. cbn [fst snd]. fold z.
  rewrite perturb_rows by (destruct Hwf as [Hr _]; apply (Hr 64%nat 2%nat)).
  fold pos. cbn [lift pbind]. rewrite shape_pos. cbn [pbind do].
  fold sampler.
  rewrite !outcome_Vis, !trace_Vis.
  rewrite handle_pool_enter. cbn [fst snd].
  rewrite handle_time. cbn [fst snd].
  rewrite handle_run_mcmc. cbn [fst snd]. fold chain.
  rewrite handle_time. cbn [fst snd].
  rewrite handle_print. cbn [fst snd].
  rewrite handle_pool_exit. cbn [fst snd].
  unfold get_chain_flat. cbn [Nat.eqb lift pbind Nat.add Nat.sub].
  rewrite !outcome_Vis, !trace_Vis.
  rewrite handle_autocorr. cbn [fst snd].
  rewrite handle_print. cbn [fst snd].
  reflexivity.
Qed.

Lemma run_mcmc_samples :
  exists samples,
    outcome w (run_mcmc x y xerr yerr soln) s = Ok samples
    /\ get_chain_flat chain 100 15 = Ok samples
    /\ length samples = (64 * 126)%nat.
Proof.
  exists (concat (every 15 0 (skipn 114 chain))).
  split; [unfold outcome; now rewrite run_mcmc_run|].
  assert (Hg : get_chain_flat chain 100 15
               = Ok (concat (every 15 0 (skipn 114 chain)))) by reflexivity.
  split; [exact Hg|].
  destruct Hwf as [_ Hc].
  destruct (Hc sampler pos 2000%nat (snd (randn w 64 2 (fst s))))
    as [Hlen Hrow].
  fold chain in Hlen, Hrow.
  rewrite (length_get_chain_flat chain 100 15 64 _ Hrow Hg), Hlen.
  reflexivity.
Qed.

End Sampling.

Lemma wf_still_world : wf_world still_world.
Proof.
  split.
  - intros d0 d1 g. cbn. split; [apply repeat_length|].
    intros r Hr. apply repeat_spec in Hr. subst r. apply repeat_length.
  - intros sm pos n g. cbn. split; [apply repeat_length|].
    intros st Hst. apply repeat_spec in Hst. subst st. apply repeat_length.
Qed.

(** C1, amended. [run_mcmc] draws a 64 x 2 standard normal array, starts 64
    walkers at [soln.x + 0.1 * draw], runs the sampler for 2000 steps on
    [log_posterior] and returns the chain flattened after a discard of 100
    and a thinning of 15; the number of samples is
    walkers * floor((steps - discard) / thin) = 64 * 126 = 8064. *)
Theorem run_mcmc_sample_count
        {G E : Type} (w : world G E) (x y xerr yerr : ndarray)
        (soln : OptimizeResult) (s : G * E) :
  wf_world w ->
  let z := fst (randn w 64 2 (fst s)) in
  let pos := map (perturbed (soln_x soln) (Fin 0.1)) z in
  let sampler := {| nwalkers := 64; ndim := 2;
                    log_prob_fn := py_log_posterior;
                    args := [x; y; xerr; yerr] |} in
  let chain :=
    fst (emcee_run w sampler pos 2000 (snd (randn w 64 2 (fst s)))) in
  exists samples,
    shape pos = (64%nat, 2%nat)
    /\ In (Event (np_random_randn 64 2))
          (trace w (run_mcmc x y xerr yerr soln) s)
    /\ In (Event (sampler_run_mcmc sampler pos 2000))
          (trace w (run_mcmc x y xerr yerr soln) s)
    /\ outcome w (run_mcmc x y xerr yerr soln) s = Ok samples
    /\ get_chain_flat chain 100 15 = Ok samples
    /\ length samples = (64 * ((2000 - 100) / 15))%nat
    /\ length samples = (64 * 126)%nat.
Proof.
  intros Hwf. cbn zeta.
  pose proof (run_mcmc_samples w Hwf x y xerr yerr soln s) as H.
  cbn zeta in H. destruct H as (samples & Ho & Hg & Hl).
  exists samples.
  split; [exact (shape_pos w Hwf x y xerr yerr soln s)|].
  unfold trace. rewrite (run_mcmc_run w Hwf). cbn [snd].
  split; [now left|].
  split; [do 3 right; now left|].
  split; [exact Ho|].
  split; [exact Hg|].
  split; [rewrite Hl; reflexivity|exact Hl].
Qed.

Lemma run_mcmc_sample_count_witness :
  exists samples,
    outcome still_world
      (run_mcmc (Array [Fin 0]) (Array [Fin 0]) (Array [Fin 1])
                (Array [Fin 1]) {| soln_x := initial |}) (tt, tt)
    = Ok samples
    /\ length samples = (64 * 126)%nat.
Proof.
  destruct (run_mcmc_sample_count still_world (Array [Fin 0])
              (Array [Fin 0]) (Array [Fin 1]) (Array [Fin 1])
              {| soln_x := initial |} (tt, tt) wf_still_world)
    as (samples & _ & _ & _ & Ho & _ & _ & Hl).
  exists samples. split; [exact Ho|exact Hl].
Defined.

(** C1 as stated fails: the count is not 64 * (2000 - 100) / 15, which is
    not a whole number (8106 and two thirds); it is 8064. *)
Lemma run_mcmc_count_is_not_the_quotient :
  exists samples,
    outcome still_world
      (run_mcmc (Array [Fin 0]) (Array [Fin 0]) (Array [Fin 1])
                (Array [Fin 1]) {| soln_x := initial |}) (tt, tt)
    = Ok samples
    /\ ~ (inject_Z (Z.of_nat (length samples))
          == 64 * (2000 - 100) / 15)%Q
    /\ Z.of_nat (length samples) <> (64 * (2000 - 100) / 15)%Z.
Proof.
  pose proof (run_mcmc_samples still_world wf_still_world (Array [Fin 0])
                (Array [Fin 0]) (Array [Fin 1]) (Array [Fin 1])
                {| soln_x := initial |} (tt, tt)) as H.
  cbn zeta in H. destruct H as (samples & Ho & _ & Hl).
  exists samples. rewrite Hl.
  split; [exact Ho|].
  split; intros H; vm_compute in H; discriminate H.
Qed.

(* ------------------------------------------------------------------ *)
(** ** Further properties of the model and the likelihoods *)

Lemma model_at_zero (q : float64) (m : R) :
  F.add q (F.mul (Fin m) (Fin 0)) = q.
Proof.
  destruct q; cbn; try reflexivity. f_equal. ring.
Qed.

Lemma broadcast_scalar_len (f : float64 -> float64 -> float64) (u : float64)
      (x : ndarray) :
  exists v, broadcast f (Scalar u) x = Ok v /\ len v = len x.
Proof.
  destruct x as [a|l]; cbn; eexists; split; try reflexivity.
  cbn. now rewrite length_map.
Qed.

(** [log_model] never raises and returns an array of the shape of [x]: on an
    array its entry [i] is [q + m * x_i], on a 0-d value it is [q + m * x].
    With a finite slope [m] its value is the intercept [q] at every entry
    where [x] is 0, whatever the other entries are. *)
Theorem log_model_shape_and_intercept :
  (forall x q m, exists v, log_model x q m = Ok v /\ len v = len x)
  /\ (forall xs q m,
         log_model (Array xs) q m
         = Ok (Array (map (fun a => F.add q (F.mul m a)) xs)))
  /\ (forall a q m,
         log_model (Scalar a) q m = Ok (Scalar (F.add q (F.mul m a))))
  /\ (forall xs q (m : R) (i : nat),
         (i < length xs)%nat ->
         nth i xs NaN = Fin 0 ->
         exists v,
           log_model (Array xs) q (Fin m) = Ok (Array v)
           /\ length v = length xs
           /\ nth i v NaN = q)
  /\ (forall q (m : R), log_model (Scalar (Fin 0)) q (Fin m) = Ok (Scalar q)).
Proof.
  assert (Harr : forall xs q m,
             log_model (Array xs) q m
             = Ok (Array (map (fun a => F.add q (F.mul m a)) xs))).
  { intros xs q m. unfold log_model, np_mul, np_add, broadcast. cbn [bind].
    now rewrite map_map. }
  split; [|split; [exact Harr|split; [|split]]].
  - intros x q m. unfold log_model, np_mul, np_add.
    destruct (broadcast_scalar_len F.mul m x) as (v & -> & Hv). cbn [bind].
    destruct (broadcast_scalar_len F.add q v) as (v' & -> & Hv').
    exists v'. split; [reflexivity|congruence].
  - intros a q m. reflexivity.
  - intros xs q m i Hi Hz. rewrite Harr. eexists. split; [reflexivity|].
    split; [apply length_map|].
    rewrite (nth_indep _ NaN (F.add q (F.mul (Fin m) NaN)))
      by (rewrite length_map; exact Hi).
    rewrite (map_nth (fun a => F.add q (F.mul (Fin m) a)) xs NaN i), Hz.
    apply model_at_zero.
  - intros q m. unfold log_model, np_mul, np_add, broadcast. cbn [bind].
    now rewrite model_at_zero.
Qed.

Lemma broadcast_err (f : float64 -> float64 -> float64) (a b : ndarray)
      (e : exn) :
  broadcast f a b = Err e -> e = ValueError.
Proof.
  destruct a as [u|l1], b as [v|l2]; cbn; try discriminate.
  destruct (Nat.eqb _ _); [discriminate|].
  destruct l1 as [|? [|? ?]], l2 as [|? [|? ?]]; try discriminate;
    now intros [= <-].
Qed.

Lemma broadcast_mismatch (f : float64 -> float64 -> float64)
      (l1 l2 : list float64) :
  length l1 <> length l2 -> length l1 <> 1%nat -> length l2 <> 1%nat ->
  broadcast f (Array l1) (Array l2) = Err ValueError.
Proof.
  intros H H1 H2. cbn.
  destruct (Nat.eqb_spec (length l1) (length l2)) as [E|_]; [contradiction|].
  destruct l1 as [|? [|? ?]], l2 as [|? [|? ?]]; cbn in *;
    try reflexivity; congruence.
Qed.

(** A bind that can only fail with ValueError and ends in ValueError. *)
Ltac value_error :=
  repeat match goal with
    | |- bind ?c _ = Err ValueError =>
        let E := fresh "E" in
        destruct c as [?|?] eqn:E; cbn [bind];
        [|apply broadcast_err in E; now subst]
    end.

(** Arrays [x] and [y] of different lengths, neither of length one, make
    both likelihoods raise ValueError, whatever the parameters and the
    uncertainties are. *)
Theorem likelihood_length_mismatch (theta : theta_t)
        (xs ys : list float64) (xerr yerr : ndarray) :
  length xs <> length ys ->
  length xs <> 1%nat ->
  length ys <> 1%nat ->
  log_likelihood theta (Array xs) (Array ys) xerr yerr = Err ValueError
  /\ log_likelihood_sim theta (Array xs) (Array ys) yerr = Err ValueError.
Proof.
  intros H Hx Hy. destruct theta as [q m].
  assert (Hr : np_sub (np_pow10 (Array ys))
                 (np_pow10 (Array (map (F.add q) (map (F.mul m) xs))))
               = Err ValueError).
  { apply broadcast_mismatch; rewrite ?length_map; congruence. }
  unfold log_likelihood, log_likelihood_sim, log_model.
  change (np_mul (Scalar m) (Array xs)) with (Ok (Array (map (F.mul m) xs))).
  cbn [bind].
  change (np_add (Scalar q) (Array (map (F.mul m) xs)))
    with (Ok (Array (map (F.add q) (map (F.mul m) xs)))).
  cbn [bind]. rewrite Hr. cbn [bind].
  split; [|reflexivity].
  unfold np_mul, np_div, np_add. value_error. reflexivity.
Qed.

Lemma likelihood_length_mismatch_witness :
  log_likelihood (Fin 0, Fin 0) (Array [Fin 0; Fin 0])
                 (Array [Fin 0; Fin 0; Fin 0]) (Scalar (Fin 0))
                 (Scalar (Fin 1)) = Err ValueError
  /\ log_likelihood_sim (Fin 0, Fin 0) (Array [Fin 0; Fin 0])
                        (Array [Fin 0; Fin 0; Fin 0]) (Scalar (Fin 1))
     = Err ValueError.
Proof.
  apply (likelihood_length_mismatch (Fin 0, Fin 0) [Fin 0; Fin 0]
           [Fin 0; Fin 0; Fin 0] (Scalar (Fin 0)) (Scalar (Fin 1)));
    cbn; lia.
Defined.

(** Inside the box of the prior the posterior is the likelihood itself, in
    both variants, also when the likelihood raises or is not finite; the
    objective of [run_best_fit] is then minus the log-probability that
    [run_mcmc] samples. *)
Theorem posterior_is_likelihood_in_box (theta : theta_t)
        (x y xerr yerr : ndarray) :
  in_box theta ->
  log_posterior theta x y xerr yerr = log_likelihood theta x y xerr yerr
  /\ log_posterior_sim theta x y yerr = log_likelihood_sim theta x y yerr
  /\ nl theta [x; y; xerr; yerr]
     = (p <- py_log_posterior theta [x; y; xerr; yerr] ;; Ok (F.neg p)).
Proof.
  intros Hb. unfold nl, py_log_likelihood, py_log_posterior,
    log_posterior, log_posterior_sim.
  rewrite (log_prior_in_box theta Hb). cbn [F.isfinite negb].
  destruct (log_likelihood theta x y xerr yerr) as [l|e];
    destruct (log_likelihood_sim theta x y yerr) as [l'|e'];
    cbn [bind]; rewrite ?add_0_l; repeat split; reflexivity.
Qed.

Lemma posterior_is_likelihood_in_box_witness :
  log_posterior (Fin 0, Fin 0) (Array [Fin 0]) (Array [Fin 0])
                (Array [Fin 0]) (Array [Fin 1])
  = log_likelihood (Fin 0, Fin 0) (Array [Fin 0]) (Array [Fin 0])
                   (Array [Fin 0]) (Array [Fin 1]).
Proof.
  apply (posterior_is_likelihood_in_box (Fin 0, Fin 0) (Array [Fin 0])
           (Array [Fin 0]) (Array [Fin 0]) (Array [Fin 1])).
  exists 0, 0. repeat split; lra.
Defined.

(** On empty arrays both likelihoods are 0 for every [theta]. *)
Theorem likelihood_of_no_data (theta : theta_t) :
  log_likelihood theta (Array []) (Array []) (Array []) (Array [])
  = Ok (Fin 0)
  /\ log_likelihood_sim theta (Array []) (Array []) (Array []) = Ok (Fin 0).
Proof.
  destruct theta as [q m]. unfold log_likelihood, log_likelihood_sim.
  cbn. split; do 2 f_equal; lra.
Qed.

(* ------------------------------------------------------------------ *)
(** ** The sign of the simulation likelihood *)

Lemma nonneg_fin (r : R) : 0 <= r -> nonneg_or_nan (Fin r).
Proof. intros H. right. right. now exists r. Qed.

Lemma nonneg_sqr (a : float64) : nonneg_or_nan (F.sqr a).
Proof.
  destruct a as [r| | |]; cbn; unfold nonneg_or_nan; auto.
  apply nonneg_fin. nra.
Qed.

Lemma nonneg_add (a b : float64) :
  nonneg_or_nan a -> nonneg_or_nan b -> nonneg_or_nan (F.add a b).
Proof.
  intros [-> | [-> | (r & -> & Hr)]] [-> | [-> | (t & -> & Ht)]]; cbn;
    unfold nonneg_or_nan; auto.
  apply nonneg_fin. lra.
Qed.

Lemma nonneg_div (a b : float64) :
  nonneg_or_nan a -> nonneg_or_nan b -> nonneg_or_nan (F.div a b).
Proof.
  intros [-> | [-> | (r & -> & Hr)]] [-> | [-> | (t & -> & Ht)]]; cbn;
    unfold nonneg_or_nan; auto.
  - destruct (Rlt_dec t 0); [lra|auto].
  - right. right. exists 0. split; [reflexivity|lra].
  - destruct (Req_dec_T t 0) as [E|E].
    + unfold F.signed_inf. rdec; auto.
    + apply nonneg_fin. apply Rmult_le_pos; [exact Hr|].
      apply Rlt_le, Rinv_0_lt_compat. lra.
Qed.

Lemma nonpos_mul_half (v : float64) :
  nonneg_or_nan v ->
  F.mul (Fin (-0.5)) v = NaN \/ F.mul (Fin (-0.5)) v = NInf
  \/ exists r : R, F.mul (Fin (-0.5)) v = Fin r /\ r <= 0.
Proof.
  intros [-> | [-> | (r & -> & Hr)]]; cbn.
  - now left.
  - right. left. unfold F.signed_inf. rdec. reflexivity.
  - right. right. eexists. split; [reflexivity|lra].
Qed.

(** On arrays of equal length, whatever their values are, the simulation
    likelihood returns without raising a value that is never greater than
    0: a number that is at most 0, -inf or nan.  The objective [nl] that the
    simulation fits minimize is its negation. *)
Theorem log_likelihood_sim_never_positive (q m : float64)
        (xs ys yerrs : list float64) :
  length ys = length xs ->
  length yerrs = length xs ->
  exists v,
    log_likelihood_sim (q, m) (Array xs) (Array ys) (Array yerrs) = Ok v
    /\ F.ltb (Fin 0) v = false
    /\ (v = NaN \/ v = NInf \/ exists r : R, v = Fin r /\ r <= 0)
    /\ nl_sim (q, m) [Array xs; Array ys; Array yerrs] = Ok (F.neg v).
Proof.
  intros Hy Hye.
  assert (H : log_likelihood_sim (q, m) (Array xs) (Array ys) (Array yerrs)
              = Ok (F.mul (Fin (-0.5))
                      (sigma (length xs)
                         (fun i => chi2_at q m (nth i xs NaN) (nth i ys NaN)
                                           (nth i yerrs NaN))))).
  { rewrite (Array_tab xs (length xs) eq_refl), (Array_tab ys _ Hy),
      (Array_tab yerrs _ Hye).
    apply log_likelihood_sim_tab. }
  eexists. split; [exact H|].
  assert (Hs : nonneg_or_nan
                 (sigma (length xs)
                    (fun i => chi2_at q m (nth i xs NaN) (nth i ys NaN)
                                      (nth i yerrs NaN)))).
  { unfold sigma, np_sum. apply (fold_add_closed nonneg_or_nan nonneg_add).
    - apply nonneg_fin. lra.
    - intros v Hv. unfold tab in Hv. apply in_map_iff in Hv.
      destruct Hv as (i & <- & _). unfold chi2_at.
      apply nonneg_div; apply nonneg_sqr. }
  pose proof (nonpos_mul_half _ Hs) as Hn.
  split; [|split; [exact Hn|]].
  - destruct Hn as [-> | [-> | (r & -> & Hr)]]; cbn; try reflexivity.
    destruct (Rlt_dec 0 r); [lra|reflexivity].
  - unfold nl_sim, py_log_likelihood_sim. now rewrite H.
Qed.

Lemma log_likelihood_sim_never_positive_witness :
  exists v,
    log_likelihood_sim (Fin 0, Fin 0) (Array [Fin 0]) (Array [Fin 1])
                       (Array [Fin 1]) = Ok v
    /\ F.ltb (Fin 0) v = false
    /\ (v = NaN \/ v = NInf \/ exists r : R, v = Fin r /\ r <= 0)
    /\ nl_sim (Fin 0, Fin 0) [Array [Fin 0]; Array [Fin 1]; Array [Fin 1]]
       = Ok (F.neg v).
Proof.
  apply (log_likelihood_sim_never_positive (Fin 0) (Fin 0) [Fin 0] [Fin 1]
           [Fin 1]); reflexivity.
Defined.

(* ------------------------------------------------------------------ *)
(** ** Observations that are not numbers *)

Lemma add_nan_r (a : float64) : F.add a NaN = NaN.
Proof. now destruct a. Qed.

Lemma fold_add_nan (l : list float64) : fold_left F.add l NaN = NaN.
Proof. induction l as [|a l IH]; [reflexivity|exact IH]. Qed.

Lemma fold_add_In_nan (l : list float64) (acc : float64) :
  In NaN l -> fold_left F.add l acc = NaN.
Proof.
  revert acc. induction l as [|a l IH]; intros acc; [easy|].
  intros [-> | H]; cbn [fold_left].
  - rewrite add_nan_r. apply fold_add_nan.
  - now apply IH.
Qed.

Lemma sigma_nan (n i : nat) (f : nat -> float64) :
  (i < n)%nat -> f i = NaN -> sigma n f = NaN.
Proof.
  intros Hi Hf. unfold sigma, np_sum, tab. apply fold_add_In_nan.
  rewrite <- Hf. apply in_map, in_seq. lia.
Qed.

Lemma term_at_nan (q m x xe e : float64) : term_at q m x NaN xe e = NaN.
Proof.
  unfold term_at, resid_at. cbn [F.pow10 F.sub F.add F.sqr F.mul F.div].
  reflexivity.
Qed.

Lemma chi2_at_nan (q m x e : float64) : chi2_at q m x NaN e = NaN.
Proof.
  unfold chi2_at, resid_at. cbn [F.pow10 F.sub F.add F.sqr F.mul F.div].
  reflexivity.
Qed.

(** One observation [y_i] that is nan makes both likelihoods nan, whatever
    the other data are: nothing filters the data, and nothing raises. *)
Theorem nan_observation_propagates (q m : float64)
        (xs ys xerrs yerrs : list float64) (i : nat) :
  length ys = length xs ->
  length xerrs = length xs ->
  length yerrs = length xs ->
  (i < length xs)%nat ->
  nth i ys (Fin 0) = NaN ->
  log_likelihood (q, m) (Array xs) (Array ys) (Array xerrs) (Array yerrs)
  = Ok NaN
  /\ log_likelihood_sim (q, m) (Array xs) (Array ys) (Array yerrs) = Ok NaN.
Proof.
  intros Hy Hxe Hye Hi Hnan.
  assert (Hn : nth i ys NaN = NaN).
  { rewrite (nth_indep ys NaN (Fin 0)) by lia. exact Hnan. }
  rewrite (Array_tab xs _ eq_refl), (Array_tab ys _ Hy),
    (Array_tab xerrs _ Hxe), (Array_tab yerrs _ Hye).
  rewrite log_likelihood_tab, log_likelihood_sim_tab.
  rewrite (sigma_nan _ i _ Hi) by (rewrite Hn; apply term_at_nan).
  rewrite (sigma_nan _ i _ Hi) by (rewrite Hn; apply chi2_at_nan).
  split; reflexivity.
Qed.

Lemma nan_observation_propagates_witness :
  log_likelihood (Fin 0, Fin 0) (Array [Fin 0; Fin 0])
                 (Array [Fin 1; NaN]) (Array [Fin 0; Fin 0])
                 (Array [Fin 1; Fin 1]) = Ok NaN
  /\ log_likelihood_sim (Fin 0, Fin 0) (Array [Fin 0; Fin 0])
                        (Array [Fin 1; NaN]) (Array [Fin 1; Fin 1]) = Ok NaN.
Proof.
  apply (nan_observation_propagates (Fin 0) (Fin 0) [Fin 0; Fin 0]
           [Fin 1; NaN] [Fin 0; Fin 0] [Fin 1; Fin 1] 1);
    try reflexivity. cbn. lia.
Defined.

(* ------------------------------------------------------------------ *)
(** ** Further properties of the sampling and fitting functions *)

Section SamplingSim.

Context {G E : Type} (w : world G E).
Hypothesis Hwf : wf_world w.

Variables (x y yerr : ndarray) (soln : OptimizeResult) (s : G * E).

Let z : matrix := fst (randn w 64 2 (fst s)).
Let pos : matrix := map (perturbed (soln_x soln) (Fin 0.1)) z.
Let sampler : EnsembleSampler :=
  {| nwalkers := 64; ndim := 2; log_prob_fn := py_log_posterior_sim;
     args := [x; y; yerr] |}.
Let chain : chain_t :=
  fst (emcee_run w sampler pos 2000 (snd (randn w 64 2 (fst s)))).

Lemma run_mcmc_sim_run :
  run w (run_mcmc_sim x y yerr soln) s
  = (Ok (concat (every 15 0 (skipn 114 chain))),
     [Event (np_random_randn 64 2); Event Pool_enter; Event time_time;
      Event (sampler_run_mcmc sampler pos 2000); Event time_time;
      Event Pool_exit]).
Proof.
  assert (Hrun : forall A (p : prog A) st,
             run w p st = (outcome w p st, trace w p st)).
  { intros. unfold outcome, trace. now destruct (run w p st). }
  assert (Hshape : shape pos = (64%nat, 2%nat)).
  { destruct Hwf as [Hr _]. destruct (Hr 64%nat 2%nat (fst s)) as [Hl Hrow].
    unfold shape, pos. fold z in Hl, Hrow. rewrite length_map, Hl.
    f_equal. destruct z as [|r z']; [discriminate Hl|reflexivity]. }
  rewrite Hrun. unfold run_mcmc_sim. cbn [pbind do].
  rewrite outcome_Vis, trace_Vis, handle_randn. cbn [fst snd]. fold z.
  rewrite perturb_rows by (destruct Hwf as [Hr _]; apply (Hr 64%nat 2%nat)).
  fold pos. cbn [lift pbind]. rewrite Hshape. cbn [pbind do].
  fold sampler.
  rewrite !outcome_Vis, !trace_Vis.
  rewrite handle_pool_enter. cbn [fst snd].
  rewrite handle_time. cbn [fst snd].
  rewrite handle_run_mcmc. cbn [fst snd]. fold chain.
  rewrite handle_time. cbn [fst snd].
  rewrite handle_pool_exit. cbn [fst snd].
  unfold get_chain_flat. cbn [Nat.eqb lift pbind Nat.add Nat.sub].
  reflexivity.
Qed.

Lemma run_mcmc_sim_samples :
  exists samples,
    outcome w (run_mcmc_sim x y yerr soln) s = Ok samples
    /\ length samples = (64 * 126)%nat.
Proof.
  exists (concat (every 15 0 (skipn 114 chain))).
  split; [unfold outcome; now rewrite run_mcmc_sim_run|].
  assert (Hg : get_chain_flat chain 100 15
               = Ok (concat (every 15 0 (skipn 114 chain)))) by reflexivity.
  destruct Hwf as [_ Hc].
  destruct (Hc sampler pos 2000%nat (snd (randn w 64 2 (fst s))))
    as [Hlen Hrow].
  fold chain in Hlen, Hrow.
  rewrite (length_get_chain_flat chain 100 15 64 _ Hrow Hg), Hlen.
  reflexivity.
Qed.

End SamplingSim.

(** [run_mcmc_sim] samples [log_posterior_sim] on (x, y, yerr) with the same
    64 walkers, 2000 steps, discard of 100 and thinning of 15 as [run_mcmc],
    so it returns 64 * 126 = 8064 samples; unlike [run_mcmc] it prints
    nothing and never asks for the autocorrelation time. *)
Theorem run_mcmc_sim_calls
        {G E : Type} (w : world G E) (x y yerr : ndarray)
        (soln : OptimizeResult) (s : G * E) :
  wf_world w ->
  let pos := map (perturbed (soln_x soln) (Fin 0.1))
                 (fst (randn w 64 2 (fst s))) in
  let sampler := {| nwalkers := 64; ndim := 2;
                    log_prob_fn := py_log_posterior_sim;
                    args := [x; y; yerr] |} in
  trace w (run_mcmc_sim x y yerr soln) s
  = [Event (np_random_randn 64 2); Event Pool_enter; Event time_time;
     Event (sampler_run_mcmc sampler pos 2000); Event time_time;
     Event Pool_exit]
  /\ exists samples,
       outcome w (run_mcmc_sim x y yerr soln) s = Ok samples
       /\ length samples = (64 * 126)%nat.
Proof.
  intros Hwf. cbn zeta. split.
  - unfold trace. now rewrite (run_mcmc_sim_run w Hwf).
  - apply (run_mcmc_sim_samples w Hwf).
Qed.

Lemma run_mcmc_sim_calls_witness :
  exists samples,
    outcome still_world
      (run_mcmc_sim (Array [Fin 0]) (Array [Fin 0]) (Array [Fin 1])
                    {| soln_x := initial |}) (tt, tt) = Ok samples
    /\ length samples = (64 * 126)%nat.
Proof.
  exact (proj2 (run_mcmc_sim_calls still_world (Array [Fin 0]) (Array [Fin 0])
                  (Array [Fin 1]) {| soln_x := initial |} (tt, tt)
                  wf_still_world)).
Defined.

Lemma length_map2 {A B C : Type} (f : A -> B -> C) (l1 : list A)
      (l2 : list B) :
  length l1 = length l2 -> length (map2 f l1 l2) = length l1.
Proof.
  revert l2. induction l1 as [|a l1 IH]; intros [|b l2] H; cbn in *;
    try reflexivity; try discriminate.
  f_equal. apply IH. congruence.
Qed.

Lemma log_likelihood_ok (theta : theta_t) (xs ys xerrs yerrs : list float64) :
  length ys = length xs ->
  length xerrs = length xs ->
  length yerrs = length xs ->
  exists v,
    log_likelihood theta (Array xs) (Array ys) (Array xerrs) (Array yerrs)
    = Ok v.
Proof.
  intros Hy Hxe Hye. destruct theta as [q m].
  rewrite (Array_tab xs (length xs) eq_refl), (Array_tab ys _ Hy),
    (Array_tab xerrs _ Hxe), (Array_tab yerrs _ Hye), log_likelihood_tab.
  eexists. reflexivity.
Qed.

Lemma log_likelihood_sim_ok (theta : theta_t) (xs ys yerrs : list float64) :
  length ys = length xs ->
  length yerrs = length xs ->
  exists v,
    log_likelihood_sim theta (Array xs) (Array ys) (Array yerrs) = Ok v.
Proof.
  intros Hy Hye. destruct theta as [q m].
  rewrite (Array_tab xs (length xs) eq_refl), (Array_tab ys _ Hy),
    (Array_tab yerrs _ Hye), log_likelihood_sim_tab.
  eexists. reflexivity.
Qed.

(** [run_best_fit] on two arrays of at least three rows, all rows of one
    length, hands the optimizer an objective that raises at no [theta] and
    returns the 8064 samples of [run_mcmc], run on the prepared arrays from
    the answer of the optimizer and from the state of the generator the
    optimizer left. *)
Theorem run_best_fit_samples
        {G E : Type} (w : world G E) (s : G * E)
        (p0 p1 p2 d0 d1 d2 : list float64) (rp rd : matrix) :
  wf_world w ->
  length p1 = length p0 ->
  length p2 = length p0 ->
  length d0 = length p0 ->
  length d1 = length p0 ->
  length d2 = length p0 ->
  let a := best_fit_args p0 p1 p2 d0 d1 d2 in
  let r := scipy_minimize w nl initial a None (seed_state w 42) in
  (forall theta, exists v, nl theta a = Ok v)
  /\ (forall theta, exists v, py_log_posterior theta a = Ok v)
  /\ exists samples,
       outcome w (run_best_fit (p0 :: p1 :: p2 :: rp) (d0 :: d1 :: d2 :: rd)) s
       = Ok samples
       /\ outcome w (run_mcmc (np_log10 (Array p0))
                              (Array (map (fun v => F.log10 (F.div v (Fin 1e7)))
                                          d0))
                              (Array (quad p1 p2))
                              (Array (map (fun v => F.div v (Fin 1e7))
                                          (quad d1 d2)))
                              (fst r)) (snd r, snd s)
          = Ok samples
       /\ length samples = (64 * 126)%nat.
Proof.
  intros Hwf H1 H2 H3 H4 H5. cbn zeta.
  assert (Hp : length p1 = length p2) by congruence.
  assert (Hd : length d1 = length d2) by congruence.
  assert (Hlik : forall theta,
             exists v,
               log_likelihood theta (Array (map F.log10 p0))
                 (Array (map (fun v => F.log10 (F.div v (Fin 1e7))) d0))
                 (Array (quad p1 p2))
                 (Array (map (fun v => F.div v (Fin 1e7)) (quad d1 d2)))
               = Ok v).
  { intros theta. apply log_likelihood_ok; unfold quad;
      rewrite ?length_map, ?length_map2 by assumption; congruence. }
  split; [|split].
  - intros theta. unfold nl, py_log_likelihood, best_fit_args, np_log10, ufunc.
    destruct (Hlik theta) as (v & ->). cbn [bind]. eexists. reflexivity.
  - intros theta. unfold py_log_posterior, best_fit_args, np_log10, ufunc,
      log_posterior.
    destruct (negb _); [eexists; reflexivity|].
    destruct (Hlik theta) as (v & ->). cbn [bind]. eexists. reflexivity.
  - unfold run_best_fit.
    pose proof (best_fit_prep p0 p1 p2 d0 d1 d2 rp rd Hp Hd) as Hprep.
    cbn zeta in Hprep. rewrite Hprep.
    cbn [lift pbind do]. rewrite !outcome_Vis, handle_seed.
    cbn [fst snd]. rewrite handle_minimize. cbn [fst snd].
    fold (best_fit_args p0 p1 p2 d0 d1 d2).
    set (r := scipy_minimize w nl initial (best_fit_args p0 p1 p2 d0 d1 d2)
                None (seed_state w 42)).
    destruct (soln_x (fst r)) as [q m] eqn:Eqm. cbn [pbind do].
    rewrite !outcome_Vis, !handle_print. cbn [fst snd].
    pose proof (run_mcmc_samples w Hwf (np_log10 (Array p0))
                  (Array (map (fun v => F.log10 (F.div v (Fin 1e7))) d0))
                  (Array (quad p1 p2))
                  (Array (map (fun v => F.div v (Fin 1e7)) (quad d1 d2)))
                  (fst r) (snd r, snd s)) as H.
    cbn zeta in H. destruct H as (samples & Ho & _ & Hl).
    exists samples. split; [|split; [exact Ho|exact Hl]].
    rewrite <- Ho. apply outcome_pbind_Ret.
Qed.

Lemma run_best_fit_samples_witness :
  exists samples,
    outcome still_world
      (run_best_fit ([Fin 1] :: [Fin 1] :: [Fin 1] :: [])
                    ([Fin 1] :: [Fin 1] :: [Fin 1] :: [])) (tt, tt)
    = Ok samples
    /\ length samples = (64 * 126)%nat.
Proof.
  destruct (run_best_fit_samples still_world (tt, tt) [Fin 1] [Fin 1] [Fin 1]
              [Fin 1] [Fin 1] [Fin 1] [] [] wf_still_world eq_refl eq_refl
              eq_refl eq_refl eq_refl)
    as (_ & _ & samples & Ho & _ & Hl).
  exists samples. split; [exact Ho|exact Hl].
Defined.

(** [run_best_fit_for_sim_with_mcmc] on arrays [r_p] and [rho_150pc] of one
    length hands the bounded optimizer an objective that raises at no
    [theta] and returns 8064 samples: those of [run_mcmc_sim] on
    (log10 r_p, y, the constant yerr) from the answer of the optimizer. *)
Theorem run_best_fit_for_sim_with_mcmc_samples
        {G E : Type} (w : world G E) (s : G * E) (xs rho : list float64) :
  wf_world w ->
  length xs = length rho ->
  let a := [np_log10 (Array xs); sim_y rho; sim_yerr rho] in
  let r := scipy_minimize w nl_sim initial a (Some bounds) (seed_state w 42) in
  (forall theta, exists v, nl_sim theta a = Ok v)
  /\ (forall theta, exists v, py_log_posterior_sim theta a = Ok v)
  /\ exists samples,
       outcome w (run_best_fit_for_sim_with_mcmc (Array xs) (Array rho)) s
       = Ok samples
       /\ outcome w (run_mcmc_sim (np_log10 (Array xs)) (sim_y rho)
                                  (sim_yerr rho) (fst r)) (snd r, snd s)
          = Ok samples
       /\ length samples = (64 * 126)%nat.
Proof.
  intros Hwf Hx. cbn zeta.
  assert (Hlik : forall theta,
             exists v,
               log_likelihood_sim theta (Array (map F.log10 xs)) (sim_y rho)
                 (sim_yerr rho) = Ok v).
  { intros theta. unfold sim_y, sim_yerr. apply log_likelihood_sim_ok;
      rewrite ?length_map, ?repeat_length; congruence. }
  split; [|split].
  - intros theta. unfold nl_sim, py_log_likelihood_sim, np_log10, ufunc.
    destruct (Hlik theta) as (v & ->). cbn [bind]. eexists. reflexivity.
  - intros theta. unfold py_log_posterior_sim, np_log10, ufunc,
      log_posterior_sim.
    destruct (negb _); [eexists; reflexivity|].
    destruct (Hlik theta) as (v & ->). cbn [bind]. eexists. reflexivity.
  - unfold run_best_fit_for_sim_with_mcmc. rewrite sim_prep.
    cbn [lift pbind do]. rewrite !outcome_Vis, handle_seed.
    cbn [fst snd]. rewrite handle_minimize. cbn [fst snd].
    set (r := scipy_minimize w nl_sim initial
                [np_log10 (Array xs); sim_y rho; sim_yerr rho] (Some bounds)
                (seed_state w 42)).
    destruct (soln_x (fst r)) as [q m] eqn:Eqm.
    destruct (run_mcmc_sim_samples w Hwf (np_log10 (Array xs)) (sim_y rho)
                (sim_yerr rho) (fst r) (snd r, snd s))
      as (samples & Ho & Hl).
    exists samples. split; [|split; [exact Ho|exact Hl]].
    rewrite <- Ho. apply outcome_pbind_Ret.
Qed.

Lemma run_best_fit_for_sim_with_mcmc_samples_witness :
  exists samples,
    outcome still_world
      (run_best_fit_for_sim_with_mcmc (Array [Fin 1]) (Array [Fin 1])) (tt, tt)
    = Ok samples
    /\ length samples = (64 * 126)%nat.
Proof.
  destruct (run_best_fit_for_sim_with_mcmc_samples still_world (tt, tt)
              [Fin 1] [Fin 1] wf_still_world eq_refl)
    as (_ & _ & samples & Ho & _ & Hl).
  exists samples. split; [exact Ho|exact Hl].
Defined.

(** [run_best_fit] on an [r_p] of fewer than three rows raises IndexError
    while it prepares the arrays: the generator is not seeded and the
    optimizer is not called. *)
Theorem run_best_fit_too_few_rows
        {G E : Type} (w : world G E) (s : G * E) (r_p rho_150pc : matrix) :
  (length r_p < 3)%nat ->
  outcome w (run_best_fit r_p rho_150pc) s = Err IndexError
  /\ trace w (run_best_fit r_p rho_150pc) s = [].
Proof.
  intros H. unfold run_best_fit.
  destruct r_p as [|p0 [|p1 [|p2 rp]]]; cbn in H; try lia;
    split; reflexivity.
Qed.

Lemma run_best_fit_too_few_rows_witness :
  outcome still_world (run_best_fit [[Fin 1]; [Fin 1]] []) (tt, tt)
  = Err IndexError
  /\ trace still_world (run_best_fit [[Fin 1]; [Fin 1]] []) (tt, tt) = [].
Proof.
  apply (run_best_fit_too_few_rows still_world (tt, tt) [[Fin 1]; [Fin 1]] []).
  cbn. lia.
Defined.

(** The simulation fits on a 0-d [rho_150pc] raise TypeError at [len(y)],
    before the generator is seeded and before the optimizer is called. *)
Theorem sim_fits_scalar_rho
        {G E : Type} (w : world G E) (s : G * E) (r_p : ndarray)
        (v : float64) :
  outcome w (run_best_fit_for_sim r_p (Scalar v)) s = Err TypeError
  /\ trace w (run_best_fit_for_sim r_p (Scalar v)) s = []
  /\ outcome w (run_best_fit_for_sim_with_mcmc r_p (Scalar v)) s
     = Err TypeError
  /\ trace w (run_best_fit_for_sim_with_mcmc r_p (Scalar v)) s = [].
Proof. repeat split; reflexivity. Qed.

(** The simulation fits do not compare the lengths of [r_p] and
    [rho_150pc]: on arrays of different lengths, neither of length one, the
    arrays are prepared, the generator is seeded and the optimizer is
    called, with an objective that raises ValueError at every [theta]. *)
Theorem sim_fit_length_mismatch_reaches_optimizer
        {G E : Type} (w : world G E) (s : G * E) (xs rho : list float64) :
  length xs <> length rho ->
  length xs <> 1%nat ->
  length rho <> 1%nat ->
  let a := [np_log10 (Array xs); sim_y rho; sim_yerr rho] in
  trace w (run_best_fit_for_sim (Array xs) (Array rho)) s
  = [Event (np_random_seed 42);
     Event (minimize nl_sim initial a (Some bounds))]
  /\ forall theta, nl_sim theta a = Err ValueError.
Proof.
  intros H Hx Hr. cbn zeta.
  split; [apply trace_run_best_fit_for_sim|].
  intros [q m]. unfold nl_sim, py_log_likelihood_sim, log_likelihood_sim,
    log_model, sim_y.
  change (np_mul (Scalar m) (np_log10 (Array xs)))
    with (Ok (Array (map (F.mul m) (map F.log10 xs)))).
  cbn [bind].
  change (np_add (Scalar q) (Array (map (F.mul m) (map F.log10 xs))))
    with (Ok (Array (map (F.add q) (map (F.mul m) (map F.log10 xs))))).
  cbn [bind].
  unfold np_sub, np_pow10, ufunc.
  rewrite broadcast_mismatch by (rewrite ?length_map; congruence).
  reflexivity.
Qed.

Lemma sim_fit_length_mismatch_reaches_optimizer_witness :
  trace still_world
    (run_best_fit_for_sim (Array [Fin 1; Fin 1]) (Array [Fin 1; Fin 1; Fin 1]))
    (tt, tt)
  = [Event (np_random_seed 42);
     Event (minimize nl_sim initial
              [np_log10 (Array [Fin 1; Fin 1]);
               sim_y [Fin 1; Fin 1; Fin 1];
               sim_yerr [Fin 1; Fin 1; Fin 1]] (Some bounds))].
Proof.
  refine (proj1 (sim_fit_length_mismatch_reaches_optimizer still_world (tt, tt)
                   [Fin 1; Fin 1] [Fin 1; Fin 1; Fin 1] _ _ _));
    cbn; lia.
Defined.

Section FinalFacts.

Context {G E : Type} (w : world G E).

Lemma final_state_Vis {A X : Type} (c : call X) (k : X -> prog A)
      (s : G * E) :
  final_state w (Vis c k) s
  = final_state w (k (fst (handle w c s))) (snd (handle w c s)).
Proof. cbn [final_state]. now destruct (handle w c s). Qed.

End FinalFacts.

(** [run_best_fit_for_sim] overwrites the state of numpy's global generator:
    whatever it was before the call, afterwards it is the state the
    optimizer leaves from the seed 42; the rest of the environment is
    untouched.  On a 0-d [rho_150pc], where it raises, it changes nothing. *)
Theorem run_best_fit_for_sim_reseeds
        {G E : Type} (w : world G E) (s : G * E) (r_p : ndarray)
        (rho : list float64) (v : float64) :
  final_state w (run_best_fit_for_sim r_p (Array rho)) s
  = (snd (scipy_minimize w nl_sim initial
            [np_log10 r_p; sim_y rho; sim_yerr rho] (Some bounds)
            (seed_state w 42)),
     snd s)
  /\ final_state w (run_best_fit_for_sim r_p (Scalar v)) s = s.
Proof.
  split; [|reflexivity].
  unfold run_best_fit_for_sim. rewrite sim_prep.
  cbn [lift pbind do]. rewrite !final_state_Vis, handle_seed.
  cbn [fst snd]. rewrite handle_minimize. cbn [fst snd].
  destruct (soln_x _) as [q m]. reflexivity.
Qed.
